(** * The pxar hardware-abstraction layer (core/hal/hal.cc)

    A shallow embedding of the HAL: every member function of [hal] that
    talks to the testboard becomes a computation in a small monad that
    threads the state of the testboard, records the remote calls in the
    order they are issued, and can end in an exception.  Writing to the
    log has no effect on the testboard and is left out. *)

From Stdlib Require Import ZArith Floats Uint63.
From stdpp Require Import base numbers list sorting gmap.

Local Open Scope Z_scope.

(** ** Machine integers

    A fixed-width unsigned integer is a [Z] together with the reduction that
    a conversion to the type performs. *)

Definition to_u8 (x : Z) : Z := x mod 2 ^ 8.
Definition to_u16 (x : Z) : Z := x mod 2 ^ 16.
Definition to_u32 (x : Z) : Z := x mod 2 ^ 32.

Definition is_u8 (x : Z) : Prop := 0 <= x < 2 ^ 8.
Definition is_u16 (x : Z) : Prop := 0 <= x < 2 ^ 16.

Lemma to_u8_id x : is_u8 x -> to_u8 x = x.
Proof. intros Hx. apply Z.mod_small. exact Hx. Qed.

Lemma to_u16_id x : is_u16 x -> to_u16 x = x.
Proof. intros Hx. apply Z.mod_small. exact Hx. Qed.

Lemma to_u8_range x : is_u8 (to_u8 x).
Proof. apply Z.mod_pos_bound. lia. Qed.

Lemma lor_u16_u8 p d : is_u16 p -> is_u8 d -> is_u16 (Z.lor p d).
Proof.
  unfold is_u16, is_u8. intros [Hp0 Hp] [Hd0 Hd]. split.
  - apply Z.lor_nonneg. lia.
  - destruct (Z.eq_dec (Z.lor p d) 0) as [->|Hne]; [lia|].
    assert (0 < Z.lor p d) by (pose proof (proj2 (Z.lor_nonneg p d) (conj Hp0 Hd0)); lia).
    apply Z.log2_lt_pow2; [lia|].
    rewrite Z.log2_lor by lia.
    apply Z.max_lub_lt.
    + destruct (Z.eq_dec p 0) as [->|]; [simpl; lia|].
      apply Z.log2_lt_pow2; lia.
    + destruct (Z.eq_dec d 0) as [->|]; [simpl; lia|].
      assert (Z.log2 d < 8) by (apply Z.log2_lt_pow2; lia). lia.
Qed.

(** ** Data types of the API (datatypes.h, constants.h)

    Neither header is part of the sources at hand.  The records carry the
    fields the HAL reads and writes; the constants are the macros it uses. *)

Module pixelConfig.
Record t : Type := mk { column : Z; row : Z; trim : Z }.
End pixelConfig.

Record pixel : Type := mk_pixel { roc_id : Z; column : Z; row : Z; value : Z }.

#[global] Instance pixel_eq_dec : EqDecision pixel.
Proof. solve_decision. Defined.

Class constants_h : Type := {
  ROC_NUMCOLS : Z;
  ROC_NUMROWS : Z;
  FLAG_INTERNAL_GET_EFFICIENCY : Z
}.

(** How an address word of the chip splits into chip, column and row. *)
Class datatypes_h : Type := {
  decode : Z -> Z * Z * Z
}.

(** Modelled from the spec: the constructor [pixel(address, data)] of
    datatypes.h is missing.  A pixel sample is a column, a row, the owning
    chip and an integer value: the value is [data], and the three
    coordinates are whatever the decoder reads from [address]. *)
Definition pixel_of_address `{datatypes_h} (address data : Z) : pixel :=
  let '(r, c, w) := decode address in
  {| roc_id := r; column := c; row := w; value := data |}.

(** [std::map<uint8_t,uint8_t>]: a finite map whose iterator visits the
    bindings by ascending key. *)
Definition key_le (a b : Z * Z) : Prop := a.1 <= b.1.

#[global] Instance key_le_dec : RelDecision key_le.
Proof. intros a b. unfold key_le. apply _. Defined.

Definition begin_end (m : gmap Z Z) : list (Z * Z) :=
  merge_sort key_le (map_to_list m).

(** ** Remote calls of the testboard

    [CTestboard] (rpc_impl.h) is the external collaborator.  The HAL only
    sequences calls into it; a call is recorded with its arguments. *)

Inductive rpc_call : Type :=
  | Flush
  | Pg_SetCmd (addr cmd : Z)
  | roc_I2cAddr (id : Z)
  | roc_SetDAC (reg value : Z)
  | mod_Addr (hub : Z)
  | tbm_Set (reg value : Z)
  | roc_Chip_Mask
  | roc_Col_Enable (col : Z) (on : bool)
  | TrimChip (trim : list Z)
  | CalibratePixel (nTriggers col row : Z)
  | CalibrateMap (nTriggers : Z)
  | Daq_GetSize (channel : Z)
  | Daq_Read (blocksize channel : Z)
  | _SetVA (mV : Z)
  | _SetVD (mV : Z)
  | _SetIA (tenth_mA : Z)
  | _SetID (tenth_mA : Z)
  | _GetVA
  | _GetVD
  | _GetIA
  | _GetID.

#[global] Instance rpc_call_eq_dec : EqDecision rpc_call.
Proof. solve_decision. Defined.

(** What the device answers.  A call without a result only moves the
    device to a new state; a call with results also returns them, in the
    order of the C++ signature (return value first, then the reference
    parameters it fills). *)
Class CTestboard (D : Type) : Type := {
  dev_exec : rpc_call -> D -> D;
  dev_CalibratePixel : Z -> Z -> Z -> D -> (Z * Z * Z) * D;
  dev_CalibrateMap : Z -> D -> (Z * list Z * list Z * list Z) * D;
  dev_Daq_GetSize : Z -> D -> Z * D;
  dev_Daq_Read : Z -> Z -> D -> (Z * list Z * Z) * D;
  dev_GetVA : D -> Z * D;
  dev_GetVD : D -> Z * D;
  dev_GetIA : D -> Z * D;
  dev_GetID : D -> Z * D
}.

(** ** Doubles

    A [double] is a binary64 number, the kernel's [float]; [*] and [/] are
    the IEEE operations [PrimFloat.mul] and [PrimFloat.div]. *)

(** The integer part of a finite double (rounding towards zero), as a
    conversion to an integer type takes it. *)
Definition double_trunc (x : float) : option Z :=
  match Prim2SF x with
  | S754_zero _ => Some 0
  | S754_finite s m e =>
      let a := if 0 <=? e then Z.shiftl (Z.pos m) e else Z.shiftr (Z.pos m) (- e) in
      Some (if s then - a else a)
  | S754_infinity _ | S754_nan => None
  end.

(** The double nearest to an integer ([|z| < 2^63]); exact below [2^53]. *)
Definition double_of_Z (z : Z) : float :=
  if z <? 0 then PrimFloat.opp (PrimFloat.of_uint63 (Uint63.of_Z (- z)))
  else PrimFloat.of_uint63 (Uint63.of_Z z).

(** [f] holds on [count] consecutive integers from [start] on. *)
Fixpoint Zrange_forallb (f : Z -> bool) (start : Z) (count : nat) : bool :=
  match count with
  | O => true
  | S count' => f start && Zrange_forallb f (start + 1) count'
  end.

(** An integer survives the conversion to a double and back. *)
Definition double_exact (n : Z) : bool :=
  match double_trunc (double_of_Z n) with
  | Some m => m =? n
  | None => false
  end.

(** ** The HAL monad *)

(** Why a call does not return. *)
Inductive failure : Type :=
  | out_of_range          (* thrown by std::vector::at *)
  | undefined_behaviour   (* the C++ standard gives the program no meaning *)
  | diverges.             (* a loop that never ends *)

Inductive outcome (A : Type) : Type :=
  | Ok (a : A)
  | Fail (e : failure).
Arguments Ok {A} a.
Arguments Fail {A} e.

(** A computation starts from a device state and yields its outcome, the
    device state it leaves and the calls it issued, oldest first. *)
Definition hal (D A : Type) : Type := D -> outcome A * D * list rpc_call.

#[global] Instance hal_ret {D} : MRet (hal D) :=
  fun A (a : A) d => (Ok a, d, []).

#[global] Instance hal_bind {D} : MBind (hal D) :=
  fun A B (f : A -> hal D B) (m : hal D A) d =>
    match m d with
    | (Ok a, d1, t1) =>
        match f a d1 with
        | (r, d2, t2) => (r, d2, t1 ++ t2)
        end
    | (Fail e, d1, t1) => (Fail e, d1, t1)
    end.

Definition abort {D A} (e : failure) : hal D A := fun d => (Fail e, d, []).

Definition result {D A} (r : outcome A * D * list rpc_call) : outcome A := r.1.1.
Definition board {D A} (r : outcome A * D * list rpc_call) : D := r.1.2.
Definition calls {D A} (r : outcome A * D * list rpc_call) : list rpc_call := r.2.

Section Testboard.
Context {D : Type} `{CTestboard D} `{constants_h} `{datatypes_h}.

(** [_testboard->f(args)] for an [f] without result. *)
Definition tb (c : rpc_call) : hal D unit :=
  fun d => (Ok tt, dev_exec c d, [c]).

(** The device after a sequence of calls without result. *)
Definition after (cs : list rpc_call) (d : D) : D :=
  foldl (fun d c => dev_exec c d) d cs.

Definition tb_CalibratePixel (nTriggers col row : Z) : hal D (Z * Z * Z) :=
  fun d => let '(r, d') := dev_CalibratePixel nTriggers col row d in
           (Ok r, d', [CalibratePixel nTriggers col row]).

Definition tb_CalibrateMap (nTriggers : Z) : hal D (Z * list Z * list Z * list Z) :=
  fun d => let '(r, d') := dev_CalibrateMap nTriggers d in
           (Ok r, d', [CalibrateMap nTriggers]).

Definition tb_Daq_GetSize (channel : Z) : hal D Z :=
  fun d => let '(r, d') := dev_Daq_GetSize channel d in
           (Ok r, d', [Daq_GetSize channel]).

Definition tb_Daq_Read (blocksize channel : Z) : hal D (Z * list Z * Z) :=
  fun d => let '(r, d') := dev_Daq_Read blocksize channel d in
           (Ok r, d', [Daq_Read blocksize channel]).

Definition tb_GetVA : hal D Z :=
  fun d => let '(r, d') := dev_GetVA d in (Ok r, d', [_GetVA]).
Definition tb_GetVD : hal D Z :=
  fun d => let '(r, d') := dev_GetVD d in (Ok r, d', [_GetVD]).
Definition tb_GetIA : hal D Z :=
  fun d => let '(r, d') := dev_GetIA d in (Ok r, d', [_GetIA]).
Definition tb_GetID : hal D Z :=
  fun d => let '(r, d') := dev_GetID d in (Ok r, d', [_GetID]).

(** *** hal::SetupPatternGenerator

    [addr] is a [uint8_t]: the increment wraps.  [cmd] is a [uint16_t]
    initialised from the OR of the promoted operands. *)
Fixpoint SetupPatternGenerator_loop (addr : Z) (pg_setup : list (Z * Z)) : hal D unit :=
  match pg_setup with
  | [] => mret tt
  | it :: rest =>
      let cmd := to_u16 (Z.lor it.1 it.2) in
      tb (Pg_SetCmd addr cmd);;
      SetupPatternGenerator_loop (to_u8 (addr + 1)) rest
  end.

Definition SetupPatternGenerator (pg_setup : list (Z * Z)) : hal D unit :=
  SetupPatternGenerator_loop 0 pg_setup.

(** *** hal::rocSetDAC, hal::rocSetDACs *)
Definition rocSetDAC (rocId dacId dacValue : Z) : hal D bool :=
  tb (roc_I2cAddr rocId);;
  tb (roc_SetDAC dacId dacValue);;
  mret true.

(** The loop of [rocSetDACs]; [false] stands for the early [return false]. *)
Fixpoint rocSetDACs_loop (rocId : Z) (its : list (Z * Z)) : hal D bool :=
  match its with
  | [] => mret true
  | it :: rest =>
      ok ← rocSetDAC rocId it.1 it.2;
      if negb ok then mret false else rocSetDACs_loop rocId rest
  end.

Definition rocSetDACs (rocId : Z) (dacPairs : gmap Z Z) : hal D bool :=
  completed ← rocSetDACs_loop rocId (begin_end dacPairs);
  if (completed : bool) then tb Flush;; mret true else mret false.

(** *** hal::tbmSetReg, hal::tbmSetRegs

    [regCore1] and [regCore2] are computed for the log only; the call
    passes [regId]. *)
Definition tbmSetReg (tbmId regId regValue : Z) : hal D bool :=
  tb (mod_Addr 31);;
  tb (tbm_Set regId regValue);;
  mret true.

Fixpoint tbmSetRegs_loop (tbmId : Z) (its : list (Z * Z)) : hal D bool :=
  match its with
  | [] => mret true
  | it :: rest =>
      ok ← tbmSetReg tbmId it.1 it.2;
      if negb ok then mret false else tbmSetRegs_loop tbmId rest
  end.

Definition tbmSetRegs (tbmId : Z) (regPairs : gmap Z Z) : hal D bool :=
  completed ← tbmSetRegs_loop tbmId (begin_end regPairs);
  if (completed : bool) then tb Flush;; mret true else mret false.

(** *** hal::RocSetMask *)

(** [trim[position] = pxIt->trim] for every listed pixel, in order.
    [operator[]] past the end has no defined behaviour. *)
Fixpoint RocSetMask_trim (trim : list Z) (pixels : list pixelConfig.t) : hal D (list Z) :=
  match pixels with
  | [] => mret trim
  | pxIt :: rest =>
      let position := pixelConfig.column pxIt * ROC_NUMROWS + pixelConfig.row pxIt in
      if bool_decide (0 <= position < Z.of_nat (length trim))
      then RocSetMask_trim (<[Z.to_nat position := pixelConfig.trim pxIt]> trim) rest
      else abort undefined_behaviour
  end.

(** [for(uint8_t col = 0; col < ROC_NUMCOLS; col++)].  The counter has
    256 values, so a run that has not left the loop after 256 rounds
    never does. *)
Fixpoint RocSetMask_cols (rounds : nat) (col : Z) : hal D unit :=
  if bool_decide (col < ROC_NUMCOLS) then
    match rounds with
    | O => abort diverges
    | S rounds' =>
        tb (roc_Col_Enable col true);;
        RocSetMask_cols rounds' (to_u8 (col + 1))
    end
  else mret tt.

Definition RocSetMask (rocid : Z) (mask : bool) (pixels : list pixelConfig.t) : hal D unit :=
  tb (roc_I2cAddr rocid);;
  if mask then tb roc_Chip_Mask
  else
    let trim := replicate (Z.to_nat (ROC_NUMCOLS * ROC_NUMROWS)) 15 in
    trim ← RocSetMask_trim trim pixels;
    RocSetMask_cols 256 0;;
    tb (TrimChip trim).

(** *** Calibration *)

(** [std::vector::at] *)
Definition at_ {A} (v : list A) (i : nat) : hal D A :=
  match v !! i with
  | Some x => mret x
  | None => abort out_of_range
  end.

(** [flags & FLAG_INTERNAL_GET_EFFICIENCY] as a condition *)
Definition get_efficiency (flags : Z) : bool :=
  negb (Z.land flags FLAG_INTERNAL_GET_EFFICIENCY =? 0).

Definition PixelCalibrateMap (rocid column row : Z) (parameter : list Z)
  : hal D (list (list pixel)) :=
  flags ← at_ parameter 0;
  nTriggers ← at_ parameter 1;
  tb (roc_I2cAddr rocid);;
  '(status, nReadouts, PHsum) ← tb_CalibratePixel nTriggers column row;
  let newpixel :=
    {| roc_id := rocid; column := column; row := row;
       value := if get_efficiency flags then nReadouts else PHsum |} in
  let data := [] ++ [newpixel] in
  mret ([] ++ [data]).

(** The loop over [address]; [i] is [it - address.begin()]. *)
Fixpoint RocCalibrateMap_fill (flags : Z) (nReadouts PHsum : list Z)
    (i : nat) (its : list Z) (data : list pixel) : hal D (list pixel) :=
  match its with
  | [] => mret data
  | it :: rest =>
      v ← (if get_efficiency flags then at_ nReadouts i else at_ PHsum i);
      RocCalibrateMap_fill flags nReadouts PHsum (S i) rest
        (data ++ [pixel_of_address it v])
  end.

Definition RocCalibrateMap (rocid : Z) (parameter : list Z)
  : hal D (list (list pixel)) :=
  flags ← at_ parameter 0;
  nTriggers ← at_ parameter 1;
  tb (roc_I2cAddr rocid);;
  '(status, nReadouts, PHsum, address) ← tb_CalibrateMap nTriggers;
  let n := length nReadouts in
  let p := length PHsum in
  let a := length address in
  if negb (a =? n)%nat || negb (a =? p)%nat || negb (n =? p)%nat
  then mret []
  else
    data ← RocCalibrateMap_fill flags nReadouts PHsum 0 address [];
    mret ([] ++ [data]).

(** *** hal::daqRead

    [buffersize_ch1] is declared without a value and assigned only when
    [nTBMs > 0]. *)
Definition daqRead (nTBMs : Z) : hal D (list Z) :=
  buffersize_ch0 ← tb_Daq_GetSize 0;
  buffersize_ch1 ←
    (if 0 <? nTBMs then s ← tb_Daq_GetSize 1; mret (Some s) else mret None);
  '(status, data, remaining_buffer_ch0) ← tb_Daq_Read buffersize_ch0 0;
  if 0 <? nTBMs then
    match buffersize_ch1 with
    | Some size1 =>
        '(status1, data1, remaining_buffer_ch1) ← tb_Daq_Read size1 1;
        mret (data ++ data1)
    | None => abort undefined_behaviour
    end
  else mret data.

(** *** Voltages and current limits *)

(** [uint16_t(x)] for a double [x]: the truncated value, when the type
    can hold it. *)
Definition uint16_of_double (x : float) : hal D Z :=
  match double_trunc x with
  | Some n => if bool_decide (is_u16 n) then mret n else abort undefined_behaviour
  | None => abort undefined_behaviour
  end.

Definition getTBia : hal D float :=
  v ← tb_GetIA; mret (PrimFloat.div (double_of_Z v) 10000).
Definition getTBva : hal D float :=
  v ← tb_GetVA; mret (PrimFloat.div (double_of_Z v) 1000).
Definition getTBid : hal D float :=
  v ← tb_GetID; mret (PrimFloat.div (double_of_Z v) 10000).
Definition getTBvd : hal D float :=
  v ← tb_GetVD; mret (PrimFloat.div (double_of_Z v) 1000).

Definition setTBia (IA : float) : hal D unit :=
  v ← uint16_of_double (PrimFloat.mul IA 10000); tb (_SetIA v).
Definition setTBva (VA : float) : hal D unit :=
  v ← uint16_of_double (PrimFloat.mul VA 1000); tb (_SetVA v).
Definition setTBid (ID : float) : hal D unit :=
  v ← uint16_of_double (PrimFloat.mul ID 10000); tb (_SetID v).
Definition setTBvd (VD : float) : hal D unit :=
  v ← uint16_of_double (PrimFloat.mul VD 1000); tb (_SetVD v).
End Testboard.

(** ** Hashes of the RPC call names

    A C string is the list of its [char]s up to the terminating NUL; the
    loop also stops at a NUL inside the list. *)

Fixpoint GetHashForString_loop (h : Z) (s : list Z) : Z :=
  match s with
  | [] => h
  | c :: s' =>
      if c =? 0 then h
      else GetHashForString_loop (Z.lxor (to_u32 (h * 54059)) (to_u32 (c * 76963))) s'
  end.

Definition GetHashForString (s : list Z) : Z :=
  GetHashForString_loop 31 s mod 86969.

(** [ret += (i+1) * GetHashForString(v[i])]: the product is a [size_t],
    the sum is cut down to the [uint32_t] that holds it. *)
Fixpoint GetHashForStringVector_loop (i ret : Z) (v : list (list Z)) : Z :=
  match v with
  | [] => ret
  | s :: v' =>
      GetHashForStringVector_loop (i + 1) (to_u32 (ret + (i + 1) * GetHashForString s)) v'
  end.

Definition GetHashForStringVector (v : list (list Z)) : Z :=
  GetHashForStringVector_loop 0 0 v.

(** ** The pattern-generator memory *)

(** Modelled from the spec: the testboard behind [Pg_SetCmd] is not part of
    the sources.  A pattern-generator program is a sequence of entries at
    consecutive device addresses; [Pg_SetCmd addr cmd] stores [cmd] at
    [addr] and no other call touches the program. *)
Definition pg_step (mem : gmap Z Z) (c : rpc_call) : gmap Z Z :=
  match c with
  | Pg_SetCmd addr cmd => <[addr := cmd]> mem
  | _ => mem
  end.

Definition pg_memory (mem : gmap Z Z) (cs : list rpc_call) : gmap Z Z :=
  foldl pg_step mem cs.

(** ** A bench board

    A stand-in for the device with state of its own: it keeps the values
    written to the supply registers and echoes them, serves the DAQ
    channels from two buffers and answers calibrations from a fixed
    script. *)
Module bench.
Record board : Type := mk {
  va : Z; vd : Z; ia : Z; id : Z;
  ch0 : list Z; ch1 : list Z;
  pixel_answer : Z * Z * Z;
  map_answer : Z * list Z * list Z * list Z
}.

Definition exec (c : rpc_call) (b : board) : board :=
  match c with
  | _SetVA v => mk v (vd b) (ia b) (id b) (ch0 b) (ch1 b) (pixel_answer b) (map_answer b)
  | _SetVD v => mk (va b) v (ia b) (id b) (ch0 b) (ch1 b) (pixel_answer b) (map_answer b)
  | _SetIA v => mk (va b) (vd b) v (id b) (ch0 b) (ch1 b) (pixel_answer b) (map_answer b)
  | _SetID v => mk (va b) (vd b) (ia b) v (ch0 b) (ch1 b) (pixel_answer b) (map_answer b)
  | _ => b
  end.

Definition buffer (channel : Z) (b : board) : list Z :=
  if channel =? 0 then ch0 b else ch1 b.

Definition read (blocksize channel : Z) (b : board) : (Z * list Z * Z) * board :=
  let buf := buffer channel b in
  let n := Z.to_nat blocksize in
  let rest := drop n buf in
  ((0, take n buf, Z.of_nat (length rest)),
   if channel =? 0
   then mk (va b) (vd b) (ia b) (id b) rest (ch1 b) (pixel_answer b) (map_answer b)
   else mk (va b) (vd b) (ia b) (id b) (ch0 b) rest (pixel_answer b) (map_answer b)).

#[global] Instance testboard : CTestboard board := {|
  dev_exec := exec;
  dev_CalibratePixel := fun _ _ _ b => (pixel_answer b, b);
  dev_CalibrateMap := fun _ b => (map_answer b, b);
  dev_Daq_GetSize := fun channel b => (Z.of_nat (length (buffer channel b)), b);
  dev_Daq_Read := read;
  dev_GetVA := fun b => (va b, b);
  dev_GetVD := fun b => (vd b, b);
  dev_GetIA := fun b => (ia b, b);
  dev_GetID := fun b => (id b, b)
|}.

Definition idle : board := mk 0 0 0 0 [] [] (0, 0, 0) (0, [], [], []).

Definition calibrated : board :=
  mk 0 0 0 0 [] [] (0, 7, 1234) (0, [9; 10], [700; 800], [513; 1027]).

(** The psi46 chip: 52 columns of 80 rows. *)
Definition psi46 : constants_h := {|
  ROC_NUMCOLS := 52;
  ROC_NUMROWS := 80;
  FLAG_INTERNAL_GET_EFFICIENCY := 256
|}.

Definition packed : datatypes_h := {|
  decode := fun address =>
    (Z.land (Z.shiftr address 16) 15, Z.land (Z.shiftr address 8) 255, Z.land address 255)
|}.
End bench.


(** * The other member functions

    The calls of the testboard that the functions above do not use, the
    HAL object with its [_initialized] flag, and the member functions
    written over them. *)

Inductive rpc_more : Type :=
  | Sig_SetDelay (signal delay : Z)
  | Sig_SetLevel (signal level : Z)
  | Daq_Select_Deser160 (phase : Z)
  | Daq_Select_Deser400
  | tbm_Enable (on : bool)
  | Daq_Open (buffersize channel : Z)
  | Daq_Start (channel : Z)
  | Daq_Stop (channel : Z)
  | Daq_Close (channel : Z)
  | uDelay (us : Z)
  | Pg_Single
  | CalibrateDacScan (nTriggers col row dacReg dacMax : Z)
  | CalibrateDacDacScan (nTriggers col row dac1Reg dac1Max dac2Reg dac2Max : Z).

#[global] Instance rpc_more_eq_dec : EqDecision rpc_more.
Proof. solve_decision. Defined.

Inductive tb_call : Type :=
  | core (c : rpc_call)
  | more (c : rpc_more).

#[global] Instance tb_call_eq_dec : EqDecision tb_call.
Proof. solve_decision. Defined.

Class CTestboard_more (D : Type) : Type := {
  dev_exec_more : rpc_more -> D -> D;
  dev_Daq_Open : Z -> Z -> D -> Z * D;
  dev_CalibrateDacScan : Z -> Z -> Z -> Z -> Z -> D -> (Z * list Z * list Z) * D;
  dev_CalibrateDacDacScan :
    Z -> Z -> Z -> Z -> Z -> Z -> Z -> D -> (Z * list Z * list Z) * D
}.

(** [SIG_DESER160PHASE] of constants.h *)
Class signals_h : Type := {
  SIG_DESER160PHASE : Z
}.

(** The data members of [hal]. *)
Record hal_object (D : Type) : Type := mk_hal {
  _testboard : D;
  _initialized : bool
}.
Arguments mk_hal {D} _ _.
Arguments _testboard {D} _.
Arguments _initialized {D} _.

(** A member function: as [hal], over the whole object and all calls. *)
Definition member (D A : Type) : Type :=
  hal_object D -> outcome A * hal_object D * list tb_call.

#[global] Instance member_ret {D} : MRet (member D) :=
  fun A (a : A) o => (Ok a, o, []).

#[global] Instance member_bind {D} : MBind (member D) :=
  fun A B (f : A -> member D B) (m : member D A) o =>
    match m o with
    | (Ok a, o1, t1) =>
        match f a o1 with
        | (r, o2, t2) => (r, o2, t1 ++ t2)
        end
    | (Fail e, o1, t1) => (Fail e, o1, t1)
    end.

Definition object {D A} (r : outcome A * hal_object D * list tb_call) : hal_object D :=
  r.1.2.

(** A loop over [its] that carries the local state [s]. *)
Fixpoint for_ {D A S} (its : list A) (body : A -> S -> member D S) (s : S) : member D S :=
  match its with
  | [] => mret s
  | it :: rest => s' ← body it s; for_ rest body s'
  end.

Section Members.
Context {D : Type} `{CTestboard D} `{CTestboard_more D} `{constants_h} `{signals_h}.

(** A computation over the calls of the first part, run on [_testboard]. *)
Definition on_testboard {A} (m : hal D A) : member D A :=
  fun o =>
    match m (_testboard o) with
    | (r, d, t) => (r, mk_hal d (_initialized o), core <$> t)
    end.

(** [_testboard->f(args)] for an [f] of [rpc_more] without result. *)
Definition tbx (c : rpc_more) : member D unit :=
  fun o => (Ok tt, mk_hal (dev_exec_more c (_testboard o)) (_initialized o), [more c]).

Definition tbx_Daq_Open (buffersize channel : Z) : member D Z :=
  fun o => let '(r, d) := dev_Daq_Open buffersize channel (_testboard o) in
           (Ok r, mk_hal d (_initialized o), [more (Daq_Open buffersize channel)]).

Definition tbx_CalibrateDacScan (nTriggers col rw dacReg dacMax : Z)
  : member D (Z * list Z * list Z) :=
  fun o => let '(r, d) := dev_CalibrateDacScan nTriggers col rw dacReg dacMax
                            (_testboard o) in
           (Ok r, mk_hal d (_initialized o),
            [more (CalibrateDacScan nTriggers col rw dacReg dacMax)]).

Definition tbx_CalibrateDacDacScan (nTriggers col rw dac1Reg dac1Max dac2Reg dac2Max : Z)
  : member D (Z * list Z * list Z) :=
  fun o => let '(r, d) := dev_CalibrateDacDacScan nTriggers col rw dac1Reg dac1Max
                            dac2Reg dac2Max (_testboard o) in
           (Ok r, mk_hal d (_initialized o),
            [more (CalibrateDacDacScan nTriggers col rw dac1Reg dac1Max dac2Reg dac2Max)]).

Definition set_initialized (b : bool) : member D unit :=
  fun o => (Ok tt, mk_hal (_testboard o) b, []).

(** *** hal::status *)
Definition status : member D bool :=
  fun o => (Ok (_initialized o), o, []).

(** *** hal::initTestboard *)
Definition initTestboard_delay (sigIt : Z * Z) : member D unit :=
  if sigIt.1 =? SIG_DESER160PHASE then tbx (Daq_Select_Deser160 sigIt.2)
  else
    tbx (Sig_SetDelay sigIt.1 sigIt.2);;
    tbx (Sig_SetLevel sigIt.1 15).

Definition initTestboard (sig_delays : gmap Z Z) (pg_setup : list (Z * Z))
    (va vd ia id : float) : member D unit :=
  on_testboard (setTBva va);;
  on_testboard (setTBvd vd);;
  on_testboard (setTBia ia);;
  on_testboard (setTBid id);;
  on_testboard (tb Flush);;
  for_ (begin_end sig_delays) (fun sigIt _ => initTestboard_delay sigIt) tt;;
  on_testboard (tb Flush);;
  on_testboard (SetupPatternGenerator pg_setup);;
  set_initialized true.

(** *** hal::initTBM, hal::initROC *)
Definition initTBM (tbmId : Z) (regVector : gmap Z Z) : member D unit :=
  tbx (tbm_Enable true);;
  on_testboard (tb (mod_Addr 31));;
  on_testboard (tb Flush);;
  on_testboard (tbmSetRegs tbmId regVector);;
  mret tt.

Definition initROC (rocId : Z) (dacVector : gmap Z Z) : member D unit :=
  on_testboard (rocSetDACs rocId dacVector);;
  mret tt.

(** *** hal::ColumnSetEnable *)
Definition ColumnSetEnable (rocid col : Z) (enable : bool) : member D unit :=
  on_testboard (tb (roc_I2cAddr rocid));;
  on_testboard (tb (roc_Col_Enable col enable)).

(** *** The DAC scans *)

(** [v[i]] without a bounds check *)
Definition index_ {A} (v : list A) (i : Z) : member D A :=
  if bool_decide (0 <= i) then
    match v !! Z.to_nat i with
    | Some x => mret x
    | None => on_testboard (abort undefined_behaviour)
    end
  else on_testboard (abort undefined_behaviour).

Definition PixelCalibrateDacScan (rocid col rw : Z) (parameter : list Z)
  : member D (list (list pixel)) :=
  dacreg ← on_testboard (at_ parameter 0);
  dacmin ← on_testboard (at_ parameter 1);
  dacmax ← on_testboard (at_ parameter 2);
  flags ← on_testboard (at_ parameter 3);
  nTriggers ← on_testboard (at_ parameter 4);
  on_testboard (tb (roc_I2cAddr rocid));;
  '(status, nReadouts, PHsum) ← tbx_CalibrateDacScan nTriggers col rw dacreg dacmax;
  for_ (seqZ 0 dacmax)
    (fun i result =>
       v ← (if get_efficiency flags then index_ nReadouts i else index_ PHsum i);
       let newpixel := {| roc_id := rocid; column := col; row := rw; value := v |} in
       let data := [] ++ [newpixel] in
       mret (result ++ [data]))
    [].

Definition PixelCalibrateDacDacScan (rocid col rw : Z) (parameter : list Z)
  : member D (list (list pixel)) :=
  dac1reg ← on_testboard (at_ parameter 0);
  dac1min ← on_testboard (at_ parameter 1);
  dac1max ← on_testboard (at_ parameter 2);
  dac2reg ← on_testboard (at_ parameter 3);
  dac2min ← on_testboard (at_ parameter 4);
  dac2max ← on_testboard (at_ parameter 5);
  flags ← on_testboard (at_ parameter 6);
  nTriggers ← on_testboard (at_ parameter 7);
  on_testboard (tb (roc_I2cAddr rocid));;
  '(status, nReadouts, PHsum) ←
    tbx_CalibrateDacDacScan nTriggers col rw dac1reg dac1max dac2reg dac2max;
  for_ (seqZ 0 dac1max)
    (fun i result =>
       for_ (seqZ 0 dac2max)
         (fun j result =>
            v ← (if get_efficiency flags then index_ nReadouts i else index_ PHsum i);
            let newpixel := {| roc_id := rocid; column := col; row := rw; value := v |} in
            let data := [] ++ [newpixel] in
            mret (result ++ [data]))
         result)
    [].

(** *** The test skeletons *)

(** An [int] expression: its value, when an [int] can hold it. *)
Definition int_ (z : Z) : member D Z :=
  if bool_decide (- 2 ^ 31 <= z < 2 ^ 31) then mret z
  else on_testboard (abort undefined_behaviour).

(** [rocid*column+row*i] *)
Definition skeleton_value (rocid col rw i : Z) : member D Z :=
  a ← int_ (rocid * col);
  b ← int_ (rw * i);
  int_ (a + b).

Definition DummyPixelTestSkeleton (rocid col rw : Z) (parameter : list Z)
  : member D (list (list pixel)) :=
  dacreg ← on_testboard (at_ parameter 0);
  dacmin ← on_testboard (at_ parameter 1);
  dacmax ← on_testboard (at_ parameter 2);
  for_ (seqZ dacmin (dacmax - dacmin))
    (fun i result =>
       v ← skeleton_value rocid col rw i;
       let newpixel := {| roc_id := rocid; column := col; row := rw; value := v |} in
       let dacscan := [] ++ [newpixel] in
       mret (result ++ [dacscan]))
    [].

(** The two inner loops of the ROC and module skeletons; the fields of a
    pixel are [uint8_t]. *)
Definition skeleton_roc (rocid i : Z) : member D (list pixel) :=
  for_ (seqZ 0 52)
    (fun col dacscan =>
       for_ (seqZ 0 80)
         (fun rw dacscan =>
            v ← skeleton_value rocid col rw i;
            let newpixel :=
              {| roc_id := to_u8 rocid; column := to_u8 col; row := to_u8 rw;
                 value := v |} in
            mret (dacscan ++ [newpixel]))
         dacscan)
    [].

Definition DummyRocTestSkeleton (rocid : Z) (parameter : list Z)
  : member D (list (list pixel)) :=
  dacreg ← on_testboard (at_ parameter 0);
  dacmin ← on_testboard (at_ parameter 1);
  dacmax ← on_testboard (at_ parameter 2);
  for_ (seqZ dacmin (dacmax - dacmin))
    (fun i result =>
       dacscan ← skeleton_roc rocid i;
       mret (result ++ [dacscan]))
    [].

Definition DummyModuleTestSkeleton (parameter : list Z) : member D (list (list pixel)) :=
  for_ (seqZ 0 16)
    (fun rocid result =>
       dacreg ← on_testboard (at_ parameter 0);
       dacmin ← on_testboard (at_ parameter 1);
       dacmax ← on_testboard (at_ parameter 2);
       for_ (seqZ dacmin (dacmax - dacmin))
         (fun i result =>
            dacscan ← skeleton_roc rocid i;
            mret (result ++ [dacscan]))
         result)
    [].

(** *** Data acquisition *)
Definition daqStart (deser160phase nTBMs : Z) : member D bool :=
  let buffer := 50000000 in
  allocated_buffer_ch0 ← tbx_Daq_Open buffer 0;
  tbx (uDelay 100);;
  (if 0 <? nTBMs then
     allocated_buffer_ch1 ← tbx_Daq_Open buffer 1;
     tbx Daq_Select_Deser400;;
     tbx (Daq_Start 1)
   else tbx (Daq_Select_Deser160 deser160phase));;
  tbx (Daq_Start 0);;
  tbx (uDelay 100);;
  on_testboard (tb Flush);;
  mret true.

(** [nTrig] is a [uint32_t]; the counter [k] stays below it. *)
Definition daqTrigger (nTrig : Z) : member D unit :=
  for_ (seqZ 0 nTrig) (fun k _ => tbx Pg_Single;; tbx (uDelay 20)) tt.

Definition daqStop (nTBMs : Z) : member D bool :=
  (if 0 <? nTBMs then tbx (Daq_Stop 1) else mret tt);;
  tbx (Daq_Stop 0);;
  mret true.

Definition daqReset (nTBMs : Z) : member D bool :=
  (if 0 <? nTBMs then tbx (Daq_Close 1) else mret tt);;
  tbx (Daq_Close 0);;
  mret true.

(** *** Reading a run *)

(** The object after a sequence of calls without result. *)
Definition exec_call (d : D) (c : tb_call) : D :=
  match c with
  | core c => dev_exec c d
  | more c => dev_exec_more c d
  end.

Definition after_calls (cs : list tb_call) (o : hal_object D) : hal_object D :=
  mk_hal (foldl exec_call (_testboard o) cs) (_initialized o).

(** [m] returns [x], having issued the calls [cs], none of which has a
    result, and nothing else. *)
Definition issues {A} (m : member D A) (x : A) (cs : list tb_call) : Prop :=
  forall o, m o = (Ok x, after_calls cs o, cs).

(** [m] leaves [_initialized] as it is, however it ends. *)
Definition keeps_initialized {A} (m : member D A) : Prop :=
  forall o, _initialized (object (m o)) = _initialized o.
End Members.

(** The bench board answers the other calls too: it grants every buffer
    in full and repeats its calibration script. *)
#[global] Instance bench_more : CTestboard_more bench.board := {|
  dev_exec_more := fun _ b => b;
  dev_Daq_Open := fun buffersize _ b => (buffersize, b);
  dev_CalibrateDacScan := fun _ _ _ _ _ b =>
    ((bench.map_answer b).1.1.1, (bench.map_answer b).1.1.2, (bench.map_answer b).1.2, b);
  dev_CalibrateDacDacScan := fun _ _ _ _ _ _ _ b =>
    ((bench.map_answer b).1.1.1, (bench.map_answer b).1.1.2, (bench.map_answer b).1.2, b)
|}.

Definition bench_signals : signals_h := {| SIG_DESER160PHASE := 4 |}.

(** ** Checks on the supply scaling

    [scale] is [1000] for the voltages and [10000] for the currents. *)

(** Sending back what the getter made of the device value [n] gives [n]
    or [n - 1]. *)
Definition reapplied (scale : float) (n : Z) : bool :=
  match double_trunc (PrimFloat.mul (PrimFloat.div (double_of_Z n) scale) scale) with
  | Some m => (m =? n) || ((m =? n - 1) && (0 <=? m))
  | None => false
  end.

(** The device value behind a reading, by rounding instead of cutting. *)
Definition device_value (scale x : float) : option Z :=
  double_trunc (PrimFloat.add (PrimFloat.mul x scale) 0.5).

Definition recovered (scale : float) (n : Z) : bool :=
  match device_value scale (PrimFloat.div (double_of_Z n) scale) with
  | Some m => m =? n
  | None => false
  end.

(** * Properties *)

(** ** Running computations *)

Section Run.
Context {D : Type} `{CTestboard D}.

Lemma run_bind {A B} (m : hal D A) (f : A -> hal D B) d a d1 t1 :
  m d = (Ok a, d1, t1) ->
  (m ≫= f) d = ((f a d1).1.1, (f a d1).1.2, t1 ++ (f a d1).2).
Proof.
  intros Hm. unfold mbind, hal_bind. rewrite Hm.
  destruct (f a d1) as [[r d2] t2]. reflexivity.
Qed.

Lemma run_bind_fail {A B} (m : hal D A) (f : A -> hal D B) d e d1 t1 :
  m d = (Fail e, d1, t1) -> (m ≫= f) d = (Fail e, d1, t1).
Proof. intros Hm. unfold mbind, hal_bind. rewrite Hm. reflexivity. Qed.

Lemma result_bind {A B} (m : hal D A) (f : A -> hal D B) d a d1 t1 :
  m d = (Ok a, d1, t1) -> result ((m ≫= f) d) = result (f a d1).
Proof. intros Hm. rewrite (run_bind _ _ _ _ _ _ Hm). reflexivity. Qed.

Lemma calls_bind {A B} (m : hal D A) (f : A -> hal D B) d a d1 t1 :
  m d = (Ok a, d1, t1) -> calls ((m ≫= f) d) = t1 ++ calls (f a d1).
Proof. intros Hm. rewrite (run_bind _ _ _ _ _ _ Hm). reflexivity. Qed.

Lemma run_tb c d : tb c d = (Ok tt, dev_exec c d, [c]).
Proof. reflexivity. Qed.

Lemma run_ret {A} (a : A) (d : D) : (mret a : hal D A) d = (Ok a, d, []).
Proof. reflexivity. Qed.
End Run.

(** Run the first computation of a sequence, given what it evaluates to. *)
Ltac hal_step H := rewrite (run_bind _ _ _ _ _ _ H).

(** ** hal::SetupPatternGenerator *)

Section PatternGenerator.
Context {D : Type} `{CTestboard D}.

Lemma SetupPatternGenerator_loop_run (pg_setup : list (Z * Z)) : forall addr d,
  let cs := imap (fun k it => Pg_SetCmd (to_u8 (addr + Z.of_nat k))
                                        (to_u16 (Z.lor it.1 it.2))) pg_setup in
  is_u8 addr ->
  SetupPatternGenerator_loop addr pg_setup d = (Ok tt, after cs d, cs).
Proof.
  induction pg_setup as [|it rest IH]; intros addr d cs Haddr.
  - reflexivity.
  - subst cs. cbn [SetupPatternGenerator_loop imap].
    rewrite (run_bind _ _ d tt (dev_exec (Pg_SetCmd addr (to_u16 (Z.lor it.1 it.2))) d)
               [Pg_SetCmd addr (to_u16 (Z.lor it.1 it.2))]) by reflexivity.
    rewrite IH by apply to_u8_range. cbn [fst snd].
    rewrite Z.add_0_r, (to_u8_id addr) by assumption.
    assert (Hext : imap (fun k it0 => Pg_SetCmd (to_u8 (to_u8 (addr + 1) + Z.of_nat k))
                                 (to_u16 (Z.lor it0.1 it0.2))) rest
            = imap ((fun k it0 => Pg_SetCmd (to_u8 (addr + Z.of_nat k))
                                 (to_u16 (Z.lor it0.1 it0.2))) ∘ S) rest).
    { apply imap_ext. intros k x _. cbn. f_equal. unfold to_u8.
      rewrite Zplus_mod_idemp_l. f_equal. lia. }
    rewrite Hext. reflexivity.
Qed.

Lemma SetupPatternGenerator_run (pg_setup : list (Z * Z)) d :
  let cs := imap (fun k it => Pg_SetCmd (to_u8 (Z.of_nat k))
                                        (to_u16 (Z.lor it.1 it.2))) pg_setup in
  SetupPatternGenerator pg_setup d = (Ok tt, after cs d, cs).
Proof.
  unfold SetupPatternGenerator.
  rewrite SetupPatternGenerator_loop_run by (unfold is_u8; lia).
  reflexivity.
Qed.

Lemma pg_memory_frame (cs : list rpc_call) (a : Z) : forall mem,
  Forall (fun c => forall v, c <> Pg_SetCmd a v) cs ->
  pg_memory mem cs !! a = mem !! a.
Proof.
  unfold pg_memory. induction cs as [|c cs IH]; intros mem Hcs; [reflexivity|].
  inversion Hcs as [|? ? Hc Hrest]; subst. cbn [foldl].
  rewrite IH by assumption.
  destruct c; cbn [pg_step]; try reflexivity.
  apply lookup_insert_ne. intros ->. exact (Hc cmd eq_refl).
Qed.

(** C7: [SetupPatternGenerator] issues one [Pg_SetCmd] per provided entry
    and no other call, the last of them for the last entry, and leaves
    every pattern-generator address at or beyond [pg_setup.size()] as it
    was. *)
Theorem SetupPatternGenerator_frame (pg_setup : list (Z * Z)) (d : D) :
  let r := SetupPatternGenerator pg_setup d in
  result r = Ok tt
  /\ length (calls r) = length pg_setup
  /\ Forall (fun c => exists addr cmd, c = Pg_SetCmd addr cmd) (calls r)
  /\ (forall k it, pg_setup !! k = Some it ->
        exists addr, calls r !! k = Some (Pg_SetCmd addr (to_u16 (Z.lor it.1 it.2))))
  /\ (forall (mem : gmap Z Z) (a : Z),
        Z.of_nat (length pg_setup) <= a ->
        pg_memory mem (calls r) !! a = mem !! a).
Proof.
  intros r. subst r. rewrite SetupPatternGenerator_run.
  unfold result, calls. cbn [fst snd].
  split; [reflexivity|]. split; [apply length_imap|].
  split; [|split].
  - apply Forall_lookup_2. intros k c Hk.
    rewrite list_lookup_imap in Hk.
    destruct (pg_setup !! k) as [it|]; [|discriminate].
    injection Hk as <-. eauto.
  - intros k it Hk. eexists. rewrite list_lookup_imap, Hk. reflexivity.
  - intros mem a Ha. apply pg_memory_frame.
    apply Forall_lookup_2. intros k c Hk v ->.
    rewrite list_lookup_imap in Hk.
    destruct (pg_setup !! k) as [it|] eqn:Hit; [|discriminate].
    injection Hk as Haddr _.
    apply lookup_lt_Some in Hit.
    pose proof (Z.mod_le (Z.of_nat k) (2 ^ 8) ltac:(lia) ltac:(lia)).
    unfold to_u8 in Haddr. lia.
Qed.

(** C1 (amended): the entries are written in input order, the [k]-th of
    them with the command word [pattern | delay] at address [k mod 256]
    (the address counter is a [uint8_t]), which is address [k] for a
    program of at most 256 entries. *)
Theorem SetupPatternGenerator_writes_in_order (pg_setup : list (Z * Z)) (d : D) :
  Forall (fun it => is_u16 it.1 /\ is_u8 it.2) pg_setup ->
  let r := SetupPatternGenerator pg_setup d in
  result r = Ok tt
  /\ length (calls r) = length pg_setup
  /\ (forall k pattern delay, pg_setup !! k = Some (pattern, delay) ->
        calls r !! k = Some (Pg_SetCmd (Z.of_nat k mod 256) (Z.lor pattern delay)))
  /\ ((length pg_setup <= 256)%nat ->
      forall k pattern delay, pg_setup !! k = Some (pattern, delay) ->
        calls r !! k = Some (Pg_SetCmd (Z.of_nat k) (Z.lor pattern delay))).
Proof.
  intros Hty r. subst r. rewrite SetupPatternGenerator_run.
  unfold result, calls. cbn [fst snd].
  assert (Hk : forall k pattern delay, pg_setup !! k = Some (pattern, delay) ->
    imap (fun k it => Pg_SetCmd (to_u8 (Z.of_nat k)) (to_u16 (Z.lor it.1 it.2)))
      pg_setup !! k = Some (Pg_SetCmd (Z.of_nat k mod 256) (Z.lor pattern delay))).
  { intros k pattern delay Hk. rewrite list_lookup_imap, Hk. cbn.
    destruct (proj1 (Forall_lookup _ _) Hty k _ Hk) as [Hp Hd]. cbn in Hp, Hd.
    rewrite (to_u16_id (Z.lor pattern delay)) by (apply lor_u16_u8; assumption).
    reflexivity. }
  split; [reflexivity|]. split; [apply length_imap|]. split; [exact Hk|].
  intros Hlen k pattern delay Hit. rewrite (Hk _ _ _ Hit).
  apply lookup_lt_Some in Hit. rewrite Z.mod_small by lia. reflexivity.
Qed.
End PatternGenerator.

(** A four-entry program (reset, calibrate, trigger, token) on the bench
    board. *)
Lemma SetupPatternGenerator_writes_in_order_witness :
  let pg_setup := [(2048, 25); (1024, 106); (512, 16); (256, 0)] in
  let r := SetupPatternGenerator pg_setup bench.idle in
  Forall (fun it => is_u16 it.1 /\ is_u8 it.2) pg_setup
  /\ calls r = [Pg_SetCmd 0 2073; Pg_SetCmd 1 1130; Pg_SetCmd 2 528; Pg_SetCmd 3 256]
  /\ (forall k pattern delay, pg_setup !! k = Some (pattern, delay) ->
        calls r !! k = Some (Pg_SetCmd (Z.of_nat k) (Z.lor pattern delay))).
Proof.
  assert (Hty : Forall (fun it : Z * Z => is_u16 it.1 /\ is_u8 it.2)
                  [(2048, 25); (1024, 106); (512, 16); (256, 0)]).
  { unfold is_u16, is_u8. repeat constructor; cbn; lia. }
  split; [exact Hty|]. split; [reflexivity|].
  apply (SetupPatternGenerator_writes_in_order _ bench.idle Hty).
  cbn. lia.
Defined.

(** C1 as stated fails once the program has more than 256 entries: the
    257th entry (index 256) goes to address 0, on top of the first. *)
Lemma SetupPatternGenerator_address_wraps :
  let pg_setup := replicate 256 (0, 0) ++ [(1, 0)] in
  let r := SetupPatternGenerator pg_setup bench.idle in
  pg_setup !! 256%nat = Some (1, 0)
  /\ calls r !! 256%nat = Some (Pg_SetCmd 0 1)
  /\ calls r !! 256%nat <> Some (Pg_SetCmd 256 (Z.lor 1 0))
  /\ pg_memory ∅ (calls r) !! 0 = Some 1.
Proof.
  vm_compute. repeat split; congruence.
Qed.

(** ** Iterating a [std::map] *)

#[global] Instance key_le_total : Total key_le.
Proof. intros a b. unfold key_le. lia. Qed.

#[global] Instance key_le_trans : Transitive key_le.
Proof. intros a b c. unfold key_le. lia. Qed.

Lemma begin_end_bindings (m : gmap Z Z) k v :
  (k, v) ∈ begin_end m <-> m !! k = Some v.
Proof.
  unfold begin_end. rewrite merge_sort_Permutation. apply elem_of_map_to_list.
Qed.

Lemma begin_end_NoDup_keys (m : gmap Z Z) : NoDup (begin_end m).*1.
Proof.
  unfold begin_end. rewrite merge_sort_Permutation. apply NoDup_fst_map_to_list.
Qed.

Lemma sorted_keys_strict (l : list (Z * Z)) :
  StronglySorted key_le l -> NoDup l.*1 -> StronglySorted Z.lt l.*1.
Proof.
  induction 1 as [|a l Hl IH Ha]; intros Hnd; cbn; [constructor|].
  apply NoDup_cons in Hnd as [Hnotin Hnd].
  constructor; [apply IH; exact Hnd|].
  apply Forall_fmap, Forall_forall. intros b Hb.
  pose proof (proj1 (Forall_forall _ _) Ha b Hb) as Hle. unfold key_le in Hle.
  cbn. destruct (Z.eq_dec a.1 b.1) as [Heq|Hne]; [|lia].
  exfalso. apply Hnotin. rewrite Heq. apply list_elem_of_fmap_2. exact Hb.
Qed.

Lemma begin_end_ascending (m : gmap Z Z) : StronglySorted Z.lt (begin_end m).*1.
Proof.
  apply sorted_keys_strict; [|apply begin_end_NoDup_keys].
  unfold begin_end. apply StronglySorted_merge_sort; apply _.
Qed.

(** ** DAC and register settings *)

Section Settings.
Context {D : Type} `{CTestboard D}.

Lemma rocSetDAC_run rocId dacId dacValue (d : D) :
  let cs := [roc_I2cAddr rocId; roc_SetDAC dacId dacValue] in
  rocSetDAC rocId dacId dacValue d = (Ok true, after cs d, cs).
Proof. reflexivity. Qed.

Lemma tbmSetReg_run tbmId regId regValue (d : D) :
  let cs := [mod_Addr 31; tbm_Set regId regValue] in
  tbmSetReg tbmId regId regValue d = (Ok true, after cs d, cs).
Proof. reflexivity. Qed.

Lemma rocSetDACs_loop_run rocId (its : list (Z * Z)) : forall d : D,
  let cs := its ≫= (fun it => [roc_I2cAddr rocId; roc_SetDAC it.1 it.2]) in
  rocSetDACs_loop rocId its d = (Ok true, after cs d, cs).
Proof.
  induction its as [|it rest IH]; intros d; [reflexivity|].
  cbn [rocSetDACs_loop].
  hal_step (rocSetDAC_run rocId it.1 it.2 d).
  cbn [negb]. rewrite IH. reflexivity.
Qed.

Lemma tbmSetRegs_loop_run tbmId (its : list (Z * Z)) : forall d : D,
  let cs := its ≫= (fun it => [mod_Addr 31; tbm_Set it.1 it.2]) in
  tbmSetRegs_loop tbmId its d = (Ok true, after cs d, cs).
Proof.
  induction its as [|it rest IH]; intros d; [reflexivity|].
  cbn [tbmSetRegs_loop].
  hal_step (tbmSetReg_run tbmId it.1 it.2 d).
  cbn [negb]. rewrite IH. reflexivity.
Qed.

Lemma rocSetDACs_run rocId (dacPairs : gmap Z Z) (d : D) :
  let cs := (begin_end dacPairs ≫=
               (fun it => [roc_I2cAddr rocId; roc_SetDAC it.1 it.2])) ++ [Flush] in
  rocSetDACs rocId dacPairs d = (Ok true, after cs d, cs).
Proof.
  unfold rocSetDACs.
  hal_step (rocSetDACs_loop_run rocId (begin_end dacPairs) d).
  cbn. unfold after. rewrite foldl_app. reflexivity.
Qed.

Lemma tbmSetRegs_run tbmId (regPairs : gmap Z Z) (d : D) :
  let cs := (begin_end regPairs ≫=
               (fun it => [mod_Addr 31; tbm_Set it.1 it.2])) ++ [Flush] in
  tbmSetRegs tbmId regPairs d = (Ok true, after cs d, cs).
Proof.
  unfold tbmSetRegs.
  hal_step (tbmSetRegs_loop_run tbmId (begin_end regPairs) d).
  cbn. unfold after. rewrite foldl_app. reflexivity.
Qed.

(** C3: [rocSetDACs] visits the pairs of the map by ascending key, issues
    [roc_I2cAddr(rocId)] and then [roc_SetDAC(key, value)] for each of
    them (the two calls of [rocSetDAC]), and ends with the [Flush] that
    sends the queued commands to the testboard. *)
Theorem rocSetDACs_calls (rocId : Z) (dacPairs : gmap Z Z) (d : D) :
  let r := rocSetDACs rocId dacPairs d in
  let pairs := begin_end dacPairs in
  result r = Ok true
  /\ calls r =
       (pairs ≫= (fun it => [roc_I2cAddr rocId; roc_SetDAC it.1 it.2])) ++ [Flush]
  /\ last (calls r) = Some Flush
  /\ StronglySorted Z.lt pairs.*1
  /\ (forall key value, (key, value) ∈ pairs <-> dacPairs !! key = Some value).
Proof.
  intros r pairs. subst r pairs. rewrite rocSetDACs_run.
  unfold result, calls. cbn [fst snd].
  split; [reflexivity|]. split; [reflexivity|].
  split; [apply last_snoc|].
  split; [apply begin_end_ascending|].
  intros key value. apply begin_end_bindings.
Qed.

(** C8: [rocSetDAC] and [tbmSetReg] return [true] whatever they are
    given, so the loops of [rocSetDACs] and [tbmSetRegs] never take the
    branch that returns [false], and both functions return [true] for
    every map. *)
Theorem rocSetDACs_tbmSetRegs_true (id : Z) (pairs : gmap Z Z) (d : D) :
  result (rocSetDACs id pairs d) = Ok true
  /\ result (tbmSetRegs id pairs d) = Ok true
  /\ (forall k v d', result (rocSetDAC id k v d') = Ok true)
  /\ (forall k v d', result (tbmSetReg id k v d') = Ok true)
  /\ (forall its d', result (rocSetDACs_loop id its d') = Ok true)
  /\ (forall its d', result (tbmSetRegs_loop id its d') = Ok true).
Proof.
  rewrite rocSetDACs_run, tbmSetRegs_run.
  repeat split; try reflexivity.
  - intros its d'. rewrite rocSetDACs_loop_run. reflexivity.
  - intros its d'. rewrite tbmSetRegs_loop_run. reflexivity.
Qed.
End Settings.

Example rocSetDACs_bench :
  calls (rocSetDACs 3 (<[12 := 60]> (<[254 := 4]> (<[1 := 6]> ∅))) bench.idle)
  = [roc_I2cAddr 3; roc_SetDAC 1 6; roc_I2cAddr 3; roc_SetDAC 12 60;
     roc_I2cAddr 3; roc_SetDAC 254 4; Flush].
Proof. vm_compute. reflexivity. Qed.

(** ** Calibration results *)

Section Calibration.
Context {D : Type} `{CTestboard D} `{constants_h} `{datatypes_h}.

Lemma at_run {A} (v : list A) i x (d : D) :
  v !! i = Some x -> at_ v i d = (Ok x, d, []).
Proof. intros Hx. unfold at_. rewrite Hx. reflexivity. Qed.

Lemma value_pixel_of_address address data :
  value (pixel_of_address address data) = data.
Proof. unfold pixel_of_address. destruct (decode address) as [[r c] w]. reflexivity. Qed.

(** C2: with at least two parameters, [PixelCalibrateMap] returns one
    inner vector holding one pixel; the pixel carries the column, row
    and chip identifier of the call, and its value is the [nReadouts]
    the device reported when [FLAG_INTERNAL_GET_EFFICIENCY] is set in
    [parameter[0]], and the reported [PHsum] otherwise. *)
Theorem PixelCalibrateMap_result (rocid col rw : Z) (parameter : list Z) (d : D) :
  (2 <= length parameter)%nat ->
  exists flags nTriggers status nReadouts PHsum px,
    parameter !! 0%nat = Some flags
    /\ parameter !! 1%nat = Some nTriggers
    /\ (dev_CalibratePixel nTriggers col rw (dev_exec (roc_I2cAddr rocid) d)).1
       = (status, nReadouts, PHsum)
    /\ result (PixelCalibrateMap rocid col rw parameter d) = Ok [[px]]
    /\ column px = col /\ row px = rw /\ roc_id px = rocid
    /\ (Z.land flags FLAG_INTERNAL_GET_EFFICIENCY <> 0 -> value px = nReadouts)
    /\ (Z.land flags FLAG_INTERNAL_GET_EFFICIENCY = 0 -> value px = PHsum).
Proof.
  intros Hlen.
  destruct parameter as [|flags [|nTriggers rest]]; cbn in Hlen; try lia.
  destruct (dev_CalibratePixel nTriggers col rw (dev_exec (roc_I2cAddr rocid) d))
    as [[[status nReadouts] PHsum] d'] eqn:Hdev.
  exists flags, nTriggers, status, nReadouts, PHsum.
  eexists. split; [reflexivity|]. split; [reflexivity|].
  split; [rewrite Hdev; reflexivity|].
  split.
  { unfold PixelCalibrateMap, result, mbind, hal_bind, at_, tb, tb_CalibratePixel.
    cbn. rewrite Hdev. cbn. reflexivity. }
  cbn. split; [reflexivity|]. split; [reflexivity|]. split; [reflexivity|].
  unfold get_efficiency.
  destruct (Z.eqb_spec (Z.land flags FLAG_INTERNAL_GET_EFFICIENCY) 0) as [Hz|Hnz];
    cbn; split; intros; congruence.
Qed.

Lemma RocCalibrateMap_fill_run flags nReadouts PHsum (its : list Z) :
  forall i data (d : D),
  let src := if get_efficiency flags then nReadouts else PHsum in
  (i + length its <= length src)%nat ->
  RocCalibrateMap_fill flags nReadouts PHsum i its data d
  = (Ok (data ++ zip_with pixel_of_address its (drop i src)), d, []).
Proof.
  induction its as [|it rest IH]; intros i data d src Hlen.
  - cbn. rewrite app_nil_r. reflexivity.
  - cbn [RocCalibrateMap_fill]. cbn [length] in Hlen.
    destruct (lookup_lt_is_Some_2 src i ltac:(lia)) as [v Hv].
    assert (Hat : (if get_efficiency flags then at_ nReadouts i else at_ PHsum i) d
                  = (Ok v, d, [])).
    { subst src. destruct (get_efficiency flags); apply at_run; exact Hv. }
    hal_step Hat.
    rewrite IH by (fold src; lia). fold src. cbn [fst snd app].
    rewrite (drop_S _ _ _ Hv). cbn [zip_with].
    rewrite <- app_assoc. reflexivity.
Qed.

(** C9: when [nReadouts], [PHsum] and [address] come back with different
    lengths, [RocCalibrateMap] returns the empty result; when the three
    lengths agree it returns one inner vector with one pixel per entry of
    [address], built from that entry and the value at the same index of
    [nReadouts] when [FLAG_INTERNAL_GET_EFFICIENCY] is set in the flags,
    and of [PHsum] otherwise. *)
Theorem RocCalibrateMap_result (rocid : Z) (parameter : list Z) (d : D) :
  (2 <= length parameter)%nat ->
  exists flags nTriggers status nReadouts PHsum address,
    parameter !! 0%nat = Some flags
    /\ parameter !! 1%nat = Some nTriggers
    /\ (dev_CalibrateMap nTriggers (dev_exec (roc_I2cAddr rocid) d)).1
       = (status, nReadouts, PHsum, address)
    /\ (~ (length address = length nReadouts /\ length address = length PHsum) ->
        result (RocCalibrateMap rocid parameter d) = Ok [])
    /\ (length address = length nReadouts /\ length address = length PHsum ->
        exists data,
          result (RocCalibrateMap rocid parameter d) = Ok [data]
          /\ length data = length address
          /\ forall i a, address !! i = Some a ->
               exists v px,
                 data !! i = Some px /\ px = pixel_of_address a v /\ value px = v
                 /\ (Z.land flags FLAG_INTERNAL_GET_EFFICIENCY <> 0 ->
                     nReadouts !! i = Some v)
                 /\ (Z.land flags FLAG_INTERNAL_GET_EFFICIENCY = 0 ->
                     PHsum !! i = Some v)).
Proof.
  intros Hlen.
  destruct parameter as [|flags [|nTriggers rest]]; cbn in Hlen; try lia.
  destruct (dev_CalibrateMap nTriggers (dev_exec (roc_I2cAddr rocid) d))
    as [[[[status nReadouts] PHsum] address] d'] eqn:Hdev.
  exists flags, nTriggers, status, nReadouts, PHsum, address.
  split; [reflexivity|]. split; [reflexivity|].
  split; [rewrite Hdev; reflexivity|].
  assert (Hmap : tb_CalibrateMap nTriggers (dev_exec (roc_I2cAddr rocid) d)
                 = (Ok (status, nReadouts, PHsum, address), d', [CalibrateMap nTriggers])).
  { unfold tb_CalibrateMap. rewrite Hdev. reflexivity. }
  unfold RocCalibrateMap.
  rewrite (result_bind _ _ d _ _ _ (at_run (flags :: nTriggers :: rest) 0%nat flags d eq_refl)).
  rewrite (result_bind _ _ d _ _ _ (at_run (flags :: nTriggers :: rest) 1%nat nTriggers d eq_refl)).
  rewrite (result_bind _ _ d _ _ _ (run_tb (roc_I2cAddr rocid) d)).
  rewrite (result_bind _ _ _ _ _ _ Hmap).
  split.
  - intros Hne.
    destruct (Nat.eqb_spec (length address) (length nReadouts)) as [Hn|Hn];
      [|reflexivity].
    destruct (Nat.eqb_spec (length address) (length PHsum)) as [Hp|Hp];
      [|reflexivity].
    exfalso. apply Hne. split; assumption.
  - intros [Hn Hp].
    rewrite Hn, <- Hp, Hn, !Nat.eqb_refl. cbn [negb orb].
    set (src := if get_efficiency flags then nReadouts else PHsum).
    assert (Hsrc : length src = length address)
      by (subst src; destruct (get_efficiency flags); congruence).
    rewrite (result_bind _ _ d' _ _ _
               (RocCalibrateMap_fill_run flags nReadouts PHsum address 0 [] d'
                  ltac:(fold src; lia))).
    fold src. cbn. exists (zip_with pixel_of_address address src).
    split; [reflexivity|]. split; [rewrite length_zip_with; lia|].
    intros i a Ha.
    destruct (lookup_lt_is_Some_2 src i) as [v Hv];
      [rewrite Hsrc; apply lookup_lt_Some in Ha; exact Ha|].
    exists v, (pixel_of_address a v).
    split; [rewrite lookup_zip_with, Ha; cbn; rewrite Hv; reflexivity|].
    split; [reflexivity|]. split; [apply value_pixel_of_address|].
    subst src. unfold get_efficiency in Hv.
    destruct (Z.eqb_spec (Z.land flags FLAG_INTERNAL_GET_EFFICIENCY) 0) as [Hz|Hnz];
      cbn in Hv; split; intros; congruence.
Qed.
End Calibration.

Lemma PixelCalibrateMap_result_witness :
  (2 <= length [256; 10])%nat
  /\ exists flags nTriggers status nReadouts PHsum px,
      [256; 10] !! 0%nat = Some flags
      /\ [256; 10] !! 1%nat = Some nTriggers
      /\ (dev_CalibratePixel nTriggers 11 22
            (dev_exec (roc_I2cAddr 2) bench.calibrated)).1
         = (status, nReadouts, PHsum)
      /\ result (PixelCalibrateMap (H0 := bench.psi46) 2 11 22 [256; 10] bench.calibrated)
         = Ok [[px]]
      /\ column px = 11 /\ row px = 22 /\ roc_id px = 2
      /\ (Z.land flags 256 <> 0 -> value px = nReadouts)
      /\ (Z.land flags 256 = 0 -> value px = PHsum).
Proof.
  assert (Hlen : (2 <= length [256; 10])%nat) by (cbn; lia).
  split; [exact Hlen|].
  exact (PixelCalibrateMap_result (H0 := bench.psi46) 2 11 22 [256; 10]
           bench.calibrated Hlen).
Defined.

Example PixelCalibrateMap_efficiency :
  result (PixelCalibrateMap (H0 := bench.psi46) 2 11 22 [256; 10] bench.calibrated)
  = Ok [[ {| roc_id := 2; column := 11; row := 22; value := 7 |} ]].
Proof. reflexivity. Qed.

Example PixelCalibrateMap_pulse_height :
  result (PixelCalibrateMap (H0 := bench.psi46) 2 11 22 [0; 10] bench.calibrated)
  = Ok [[ {| roc_id := 2; column := 11; row := 22; value := 1234 |} ]].
Proof. reflexivity. Qed.

Example PixelCalibrateMap_short_parameter :
  result (PixelCalibrateMap (H0 := bench.psi46) 2 11 22 [256] bench.calibrated)
  = Fail out_of_range.
Proof. reflexivity. Qed.

Lemma RocCalibrateMap_result_witness :
  (2 <= length [0; 10])%nat
  /\ exists flags nTriggers status nReadouts PHsum address,
      [0; 10] !! 0%nat = Some flags
      /\ [0; 10] !! 1%nat = Some nTriggers
      /\ (dev_CalibrateMap nTriggers (dev_exec (roc_I2cAddr 2) bench.calibrated)).1
         = (status, nReadouts, PHsum, address)
      /\ (~ (length address = length nReadouts /\ length address = length PHsum) ->
          result (RocCalibrateMap (H0 := bench.psi46) (H1 := bench.packed) 2 [0; 10]
                    bench.calibrated) = Ok [])
      /\ (length address = length nReadouts /\ length address = length PHsum ->
          exists data,
            result (RocCalibrateMap (H0 := bench.psi46) (H1 := bench.packed) 2 [0; 10]
                      bench.calibrated) = Ok [data]
            /\ length data = length address
            /\ forall i a, address !! i = Some a ->
                 exists v px,
                   data !! i = Some px
                   /\ px = pixel_of_address (H := bench.packed) a v /\ value px = v
                   /\ (Z.land flags 256 <> 0 -> nReadouts !! i = Some v)
                   /\ (Z.land flags 256 = 0 -> PHsum !! i = Some v)).
Proof.
  assert (Hlen : (2 <= length [0; 10])%nat) by (cbn; lia).
  split; [exact Hlen|].
  exact (RocCalibrateMap_result (H0 := bench.psi46) (H1 := bench.packed) 2 [0; 10]
           bench.calibrated Hlen).
Defined.

Example RocCalibrateMap_pulse_height :
  result (RocCalibrateMap (H0 := bench.psi46) (H1 := bench.packed) 2 [0; 10]
            bench.calibrated)
  = Ok [[ {| roc_id := 0; column := 2; row := 1; value := 700 |};
          {| roc_id := 0; column := 4; row := 3; value := 800 |} ]].
Proof. reflexivity. Qed.

Example RocCalibrateMap_size_mismatch :
  result (RocCalibrateMap (H0 := bench.psi46) (H1 := bench.packed) 2 [0; 10]
            (bench.mk 0 0 0 0 [] [] (0, 0, 0) (0, [9; 10], [700], [513; 1027])))
  = Ok [].
Proof. reflexivity. Qed.

(** ** hal::daqRead *)

Section Daq.
Context {D : Type} `{CTestboard D}.

(** C5: [daqRead] asks for the size of the channel 0 buffer (and of the
    channel 1 buffer when [nTBMs > 0]), reads that many words from
    channel 0 with [Daq_Read], and when [nTBMs > 0] reads the channel 1
    buffer as well; it returns the channel 0 words followed by the
    channel 1 words, and the channel 0 words alone when [nTBMs] is 0. *)
Theorem daqRead_result (nTBMs : Z) (d : D) :
  let r := daqRead nTBMs d in
  let size0 := (dev_Daq_GetSize 0 d).1 in
  let d1 := (dev_Daq_GetSize 0 d).2 in
  (nTBMs <= 0 /\
   let read0 := dev_Daq_Read size0 0 d1 in
   calls r = [Daq_GetSize 0; Daq_Read size0 0]
   /\ result r = Ok read0.1.1.2
   /\ board r = read0.2)
  \/
  (0 < nTBMs /\
   let size1 := (dev_Daq_GetSize 1 d1).1 in
   let d2 := (dev_Daq_GetSize 1 d1).2 in
   let read0 := dev_Daq_Read size0 0 d2 in
   let read1 := dev_Daq_Read size1 1 read0.2 in
   calls r = [Daq_GetSize 0; Daq_GetSize 1; Daq_Read size0 0; Daq_Read size1 1]
   /\ result r = Ok (read0.1.1.2 ++ read1.1.1.2)
   /\ board r = read1.2).
Proof.
  cbn zeta.
  destruct (dev_Daq_GetSize 0 d) as [size0 d1] eqn:Hsize0. cbn [fst snd].
  assert (Hs0 : tb_Daq_GetSize 0 d = (Ok size0, d1, [Daq_GetSize 0]))
    by (unfold tb_Daq_GetSize; rewrite Hsize0; reflexivity).
  unfold daqRead. hal_step Hs0.
  destruct (Z.ltb_spec 0 nTBMs) as [Hpos|Hnpos].
  - right. split; [exact Hpos|].
    destruct (dev_Daq_GetSize 1 d1) as [size1 d2] eqn:Hsize1. cbn [fst snd].
    destruct (dev_Daq_Read size0 0 d2) as [[[status data] remaining] d3] eqn:Hread0.
    cbn [fst snd].
    destruct (dev_Daq_Read size1 1 d3) as [[[status1 data1] remaining1] d4] eqn:Hread1.
    cbn [fst snd].
    assert (Hs1 : (s ← tb_Daq_GetSize 1; mret (Some s)) d1
                  = (Ok (Some size1), d2, [Daq_GetSize 1])).
    { unfold mbind, hal_bind, tb_Daq_GetSize. rewrite Hsize1. reflexivity. }
    assert (Hr0 : tb_Daq_Read size0 0 d2
                  = (Ok (status, data, remaining), d3, [Daq_Read size0 0]))
      by (unfold tb_Daq_Read; rewrite Hread0; reflexivity).
    assert (Hr1 : tb_Daq_Read size1 1 d3
                  = (Ok (status1, data1, remaining1), d4, [Daq_Read size1 1]))
      by (unfold tb_Daq_Read; rewrite Hread1; reflexivity).
    hal_step Hs1. hal_step Hr0. cbn beta iota. hal_step Hr1.
    repeat split; reflexivity.
  - left. split; [exact Hnpos|].
    destruct (dev_Daq_Read size0 0 d1) as [[[status data] remaining] d3] eqn:Hread0.
    cbn [fst snd].
    assert (Hr0 : tb_Daq_Read size0 0 d1
                  = (Ok (status, data, remaining), d3, [Daq_Read size0 0]))
      by (unfold tb_Daq_Read; rewrite Hread0; reflexivity).
    hal_step (run_ret (None : option Z) d1). hal_step Hr0.
    repeat split; reflexivity.
Qed.
End Daq.

(** On the bench board, which hands out what is asked for, the result is
    the content of the buffers. *)
Lemma daqRead_bench (nTBMs : Z) (b : bench.board) :
  result (daqRead nTBMs b)
  = Ok (if 0 <? nTBMs then bench.ch0 b ++ bench.ch1 b else bench.ch0 b).
Proof.
  unfold daqRead, result, mbind, hal_bind, tb_Daq_GetSize, tb_Daq_Read.
  destruct b as [va vd ia id ch0 ch1 pa ma]. cbn.
  destruct (0 <? nTBMs); cbn; rewrite !Nat2Z.id, !firstn_all; reflexivity.
Qed.

(** ** Hashes *)

Lemma lxor_u32 a b : 0 <= a < 2 ^ 32 -> 0 <= b < 2 ^ 32 -> 0 <= Z.lxor a b < 2 ^ 32.
Proof.
  intros [Ha0 Ha] [Hb0 Hb].
  assert (H0 : 0 <= Z.lxor a b) by (apply Z.lxor_nonneg; lia).
  split; [exact H0|].
  destruct (Z.eq_dec (Z.lxor a b) 0) as [->|Hne]; [lia|].
  apply Z.log2_lt_pow2; [lia|].
  pose proof (Z.log2_lxor a b Ha0 Hb0) as Hlog.
  assert (Z.log2 a < 32).
  { destruct (Z.eq_dec a 0) as [->|]; [cbn; lia|]. apply Z.log2_lt_pow2; lia. }
  assert (Z.log2 b < 32).
  { destruct (Z.eq_dec b 0) as [->|]; [cbn; lia|]. apply Z.log2_lt_pow2; lia. }
  lia.
Qed.

Lemma to_u32_range x : 0 <= to_u32 x < 2 ^ 32.
Proof. apply Z.mod_pos_bound. lia. Qed.

Lemma GetHashForString_loop_u32 (s : list Z) : forall h,
  0 <= h < 2 ^ 32 -> 0 <= GetHashForString_loop h s < 2 ^ 32.
Proof.
  induction s as [|c s IH]; intros h Hh; cbn [GetHashForString_loop]; [exact Hh|].
  destruct (c =? 0); [exact Hh|].
  apply IH. apply lxor_u32; apply to_u32_range.
Qed.

(** C10: the hash of a string is below 86969; the running value [h] is a
    32-bit word after every step, products and XORs being taken modulo
    [2^32]; the empty string hashes to 31 and the empty vector to 0. *)
Theorem GetHashForString_bound (s : list Z) :
  0 <= GetHashForString s < 86969
  /\ 0 <= GetHashForString_loop 31 s < 2 ^ 32
  /\ (forall h c s', c <> 0 ->
        GetHashForString_loop h (c :: s')
        = GetHashForString_loop
            (Z.lxor ((h * 54059) mod 2 ^ 32) ((c * 76963) mod 2 ^ 32)) s')
  /\ GetHashForString [] = 31
  /\ 31 mod 86969 = 31
  /\ GetHashForStringVector [] = 0.
Proof.
  split; [apply Z.mod_pos_bound; lia|].
  split; [apply GetHashForString_loop_u32; lia|].
  split; [|repeat split; reflexivity].
  intros h c s' Hc. cbn [GetHashForString_loop].
  destruct (Z.eqb_spec c 0) as [?|_]; [contradiction|reflexivity].
Qed.

Example GetHashForString_Flush :
  GetHashForString [70; 108; 117; 115; 104] = 42500.
Proof. vm_compute. reflexivity. Qed.

(** ** hal::RocSetMask *)

Section Mask.
Context {D : Type} `{CTestboard D} `{constants_h}.

Lemma RocSetMask_trim_length (pixels : list pixelConfig.t) : forall trim : list Z,
  length (foldl (fun t px =>
            <[Z.to_nat (pixelConfig.column px * ROC_NUMROWS + pixelConfig.row px)
              := pixelConfig.trim px]> t) trim pixels) = length trim.
Proof.
  induction pixels as [|px rest IH]; intros trim; cbn [foldl]; [reflexivity|].
  rewrite IH. apply length_insert.
Qed.

Lemma RocSetMask_trim_run (pixels : list pixelConfig.t) : forall (trim : list Z) (d : D),
  Forall (fun px =>
    0 <= pixelConfig.column px * ROC_NUMROWS + pixelConfig.row px
      < Z.of_nat (length trim)) pixels ->
  RocSetMask_trim trim pixels d
  = (Ok (foldl (fun t px =>
            <[Z.to_nat (pixelConfig.column px * ROC_NUMROWS + pixelConfig.row px)
              := pixelConfig.trim px]> t) trim pixels), d, []).
Proof.
  induction pixels as [|px rest IH]; intros trim d Hin; [reflexivity|].
  inversion Hin as [|? ? Hpx Hrest]; subst.
  cbn [RocSetMask_trim foldl]. rewrite bool_decide_eq_true_2 by exact Hpx.
  apply IH. rewrite length_insert. exact Hrest.
Qed.

Lemma RocSetMask_trim_untouched (pixels : list pixelConfig.t) (i : nat) :
  forall trim : list Z,
  Forall (fun px =>
    Z.to_nat (pixelConfig.column px * ROC_NUMROWS + pixelConfig.row px) <> i) pixels ->
  foldl (fun t px =>
     <[Z.to_nat (pixelConfig.column px * ROC_NUMROWS + pixelConfig.row px)
       := pixelConfig.trim px]> t) trim pixels !! i = trim !! i.
Proof.
  induction pixels as [|px rest IH]; intros trim Hne; [reflexivity|].
  inversion Hne as [|? ? Hpx Hrest]; subst. cbn [foldl].
  rewrite IH by exact Hrest. apply list_lookup_insert_ne. exact Hpx.
Qed.

Lemma RocSetMask_cols_run (rounds : nat) : forall (col : Z) (d : D),
  let cs := (fun c => roc_Col_Enable c true) <$> seqZ col (ROC_NUMCOLS - col) in
  0 <= col <= ROC_NUMCOLS -> ROC_NUMCOLS < 256 ->
  ROC_NUMCOLS - col <= Z.of_nat rounds ->
  RocSetMask_cols rounds col d = (Ok tt, after cs d, cs).
Proof.
  induction rounds as [|rounds IH]; intros col d cs Hcol Hmax Hrounds; subst cs.
  - cbn [RocSetMask_cols]. rewrite bool_decide_eq_false_2 by lia.
    replace (ROC_NUMCOLS - col) with 0 by lia. reflexivity.
  - cbn [RocSetMask_cols]. destruct (decide (col < ROC_NUMCOLS)) as [Hlt|Hge].
    + rewrite bool_decide_eq_true_2 by exact Hlt.
      hal_step (run_tb (roc_Col_Enable col true) d).
      rewrite (to_u8_id (col + 1)) by (unfold is_u8; lia).
      rewrite IH by lia. cbn [fst snd].
      rewrite (seqZ_cons col (ROC_NUMCOLS - col)) by lia.
      replace (Z.succ col) with (col + 1) by lia.
      replace (Z.pred (ROC_NUMCOLS - col)) with (ROC_NUMCOLS - (col + 1)) by lia.
      reflexivity.
    + rewrite bool_decide_eq_false_2 by exact Hge.
      replace (ROC_NUMCOLS - col) with 0 by lia. reflexivity.
Qed.

(** C4 (amended): unmasking a chip whose listed pixels all lie on the
    chip hands [TrimChip] a vector of [ROC_NUMCOLS*ROC_NUMROWS] entries;
    the entry at [column*ROC_NUMROWS + row] is the trim value of the
    last listed pixel at that column and row, every entry that no
    listed pixel addresses is 15, and all columns [0..ROC_NUMCOLS-1]
    are enabled, in order, before [TrimChip] is called. *)
Theorem RocSetMask_trims (rocid : Z) (pixels : list pixelConfig.t) (d : D) :
  0 <= ROC_NUMCOLS < 256 ->
  0 <= ROC_NUMROWS ->
  Forall (fun px => 0 <= pixelConfig.column px < ROC_NUMCOLS
                    /\ 0 <= pixelConfig.row px < ROC_NUMROWS) pixels ->
  let r := RocSetMask rocid false pixels d in
  exists trim,
    result r = Ok tt
    /\ calls r = roc_I2cAddr rocid
                 :: ((fun c => roc_Col_Enable c true) <$> seqZ 0 ROC_NUMCOLS)
                 ++ [TrimChip trim]
    /\ length trim = Z.to_nat (ROC_NUMCOLS * ROC_NUMROWS)
    /\ (forall before px later,
          pixels = before ++ px :: later ->
          Forall (fun q => ~ (pixelConfig.column q = pixelConfig.column px
                              /\ pixelConfig.row q = pixelConfig.row px)) later ->
          trim !! Z.to_nat (pixelConfig.column px * ROC_NUMROWS + pixelConfig.row px)
          = Some (pixelConfig.trim px))
    /\ (forall i, (i < length trim)%nat ->
          Forall (fun px =>
            Z.to_nat (pixelConfig.column px * ROC_NUMROWS + pixelConfig.row px) <> i)
            pixels ->
          trim !! i = Some 15).
Proof.
  intros Hcols Hrows Hin r. subst r.
  set (fill := fun (t : list Z) px =>
     <[Z.to_nat (pixelConfig.column px * ROC_NUMROWS + pixelConfig.row px)
       := pixelConfig.trim px]> t).
  set (trim0 := replicate (Z.to_nat (ROC_NUMCOLS * ROC_NUMROWS)) 15).
  assert (Hpos : forall px, 0 <= pixelConfig.column px < ROC_NUMCOLS
                    /\ 0 <= pixelConfig.row px < ROC_NUMROWS ->
            0 <= pixelConfig.column px * ROC_NUMROWS + pixelConfig.row px
              < ROC_NUMCOLS * ROC_NUMROWS) by (intros px [? ?]; nia).
  assert (Hlen0 : length trim0 = Z.to_nat (ROC_NUMCOLS * ROC_NUMROWS))
    by apply length_replicate.
  assert (Hfill : RocSetMask_trim trim0 pixels (dev_exec (roc_I2cAddr rocid) d)
                  = (Ok (foldl fill trim0 pixels), dev_exec (roc_I2cAddr rocid) d, [])).
  { apply RocSetMask_trim_run. eapply Forall_impl; [exact Hin|].
    intros px Hpx. rewrite Hlen0. specialize (Hpos px Hpx). lia. }
  exists (foldl fill trim0 pixels).
  unfold RocSetMask. fold trim0.
  hal_step (run_tb (roc_I2cAddr rocid) d).
  hal_step Hfill.
  rewrite (run_bind _ _ _ _ _ _
             (RocSetMask_cols_run 256 0 _ ltac:(lia) ltac:(lia) ltac:(lia))).
  rewrite Z.sub_0_r. unfold result, calls. cbn [fst snd app tb].
  split; [reflexivity|]. split; [reflexivity|].
  assert (Hlen : length (foldl fill trim0 pixels) = Z.to_nat (ROC_NUMCOLS * ROC_NUMROWS))
    by (subst fill; rewrite RocSetMask_trim_length; exact Hlen0).
  split; [exact Hlen|]. split.
  - intros before px later -> Hlater.
    apply Forall_app in Hin as [Hbefore Hin].
    inversion Hin as [|? ? Hpx Hlater_in]; subst.
    rewrite foldl_app. cbn [foldl].
    subst fill. cbv beta. rewrite RocSetMask_trim_untouched.
    + apply list_lookup_insert_eq. rewrite RocSetMask_trim_length, Hlen0.
      specialize (Hpos px Hpx). lia.
    + apply Forall_forall. intros q Hq Heq.
      pose proof (proj1 (Forall_forall _ _) Hlater q Hq) as Hdiff.
      pose proof (proj1 (Forall_forall _ _) Hlater_in q Hq) as Hqin.
      pose proof (Hpos q Hqin). pose proof (Hpos px Hpx).
      apply Hdiff. destruct Hqin as [? ?], Hpx as [? ?].
      assert (pixelConfig.column q * ROC_NUMROWS + pixelConfig.row q
              = pixelConfig.column px * ROC_NUMROWS + pixelConfig.row px) by lia.
      assert (pixelConfig.column q = pixelConfig.column px) by nia.
      split; [assumption|nia].
  - intros i Hi Hno. subst fill. rewrite RocSetMask_trim_untouched by exact Hno.
    apply lookup_replicate_2. rewrite Hlen in Hi. exact Hi.
Qed.
End Mask.

Lemma RocSetMask_trims_witness :
  let pixels := [pixelConfig.mk 1 2 7; pixelConfig.mk 0 0 3; pixelConfig.mk 1 2 9] in
  let r := RocSetMask (H0 := bench.psi46) 4 false pixels bench.idle in
  (0 <= 52 < 256 /\ 0 <= 80
   /\ Forall (fun px => 0 <= pixelConfig.column px < 52
                        /\ 0 <= pixelConfig.row px < 80) pixels)
  /\ exists trim,
      result r = Ok tt
      /\ calls r = roc_I2cAddr 4
                   :: ((fun c => roc_Col_Enable c true) <$> seqZ 0 52)
                   ++ [TrimChip trim]
      /\ length trim = Z.to_nat (52 * 80)
      /\ (forall before px later,
            pixels = before ++ px :: later ->
            Forall (fun q => ~ (pixelConfig.column q = pixelConfig.column px
                                /\ pixelConfig.row q = pixelConfig.row px)) later ->
            trim !! Z.to_nat (pixelConfig.column px * 80 + pixelConfig.row px)
            = Some (pixelConfig.trim px))
      /\ (forall i, (i < length trim)%nat ->
            Forall (fun px =>
              Z.to_nat (pixelConfig.column px * 80 + pixelConfig.row px) <> i) pixels ->
            trim !! i = Some 15).
Proof.
  assert (Hcols : 0 <= 52 < 256) by lia.
  assert (Hrows : 0 <= 80) by lia.
  assert (Hin : Forall (fun px => 0 <= pixelConfig.column px < 52
                                  /\ 0 <= pixelConfig.row px < 80)
                  [pixelConfig.mk 1 2 7; pixelConfig.mk 0 0 3; pixelConfig.mk 1 2 9])
    by (repeat constructor; cbn; lia).
  split; [auto|].
  exact (RocSetMask_trims (H0 := bench.psi46) 4 _ bench.idle Hcols Hrows Hin).
Defined.

(** C4 as stated fails when a column and row are listed twice: the entry
    takes the trim value of the later pixel, not that of the earlier one. *)
Lemma RocSetMask_listed_twice :
  let pixels := [pixelConfig.mk 0 0 3; pixelConfig.mk 0 0 5] in
  let r := RocSetMask (H0 := bench.psi46) 4 false pixels bench.idle in
  Forall (fun px => 0 <= pixelConfig.column px < 52
                    /\ 0 <= pixelConfig.row px < 80) pixels
  /\ pixels !! 0%nat = Some (pixelConfig.mk 0 0 3)
  /\ result r = Ok tt
  /\ exists trim,
       last (calls r) = Some (TrimChip trim)
       /\ trim !! Z.to_nat (0 * 80 + 0) = Some 5
       /\ trim !! Z.to_nat (0 * 80 + 0) <> Some 3.
Proof.
  split; [repeat constructor; cbn; lia|].
  split; [reflexivity|]. split; [vm_compute; reflexivity|].
  exists (5 :: replicate 4159 15).
  split; [vm_compute; reflexivity|].
  split; [reflexivity|].
  intros Heq. vm_compute in Heq. discriminate Heq.
Qed.

Example RocSetMask_mask :
  calls (RocSetMask (H0 := bench.psi46) 4 true [] bench.idle)
  = [roc_I2cAddr 4; roc_Chip_Mask].
Proof. reflexivity. Qed.

Example RocSetMask_off_chip :
  result (RocSetMask (H0 := bench.psi46) 4 false [pixelConfig.mk 52 0 3] bench.idle)
  = Fail undefined_behaviour.
Proof. vm_compute. reflexivity. Qed.

(** ** Voltages and current limits *)

Lemma Zrange_forallb_spec (f : Z -> bool) (count : nat) : forall start z,
  Zrange_forallb f start count = true ->
  start <= z < start + Z.of_nat count -> f z = true.
Proof.
  induction count as [|count IH]; intros start z Hall Hz; [lia|].
  cbn [Zrange_forallb] in Hall. apply andb_prop in Hall as [Hstart Hrest].
  destruct (Z.eq_dec z start) as [->|Hne]; [exact Hstart|].
  apply (IH (start + 1)); [exact Hrest|lia].
Qed.

Lemma double_exact_u16 : Zrange_forallb double_exact 0 (Z.to_nat (2 ^ 16)) = true.
Proof. vm_compute. reflexivity. Qed.

Lemma double_trunc_of_u16 (n : Z) :
  is_u16 n -> double_trunc (double_of_Z n) = Some n.
Proof.
  intros Hn.
  pose proof (Zrange_forallb_spec double_exact _ 0 n double_exact_u16) as Hex.
  unfold double_exact in Hex.
  destruct (double_trunc (double_of_Z n)) as [m|].
  - f_equal. apply Z.eqb_eq. apply Hex. unfold is_u16 in Hn. lia.
  - discriminate Hex. unfold is_u16 in Hn. lia.
Qed.

Section Supply.
Context {D : Type} `{CTestboard D}.

Lemma uint16_of_double_run (x : float) (n : Z) (d : D) :
  double_trunc x = Some n -> is_u16 n -> uint16_of_double x d = (Ok n, d, []).
Proof.
  intros Hx Hn. unfold uint16_of_double. rewrite Hx.
  rewrite bool_decide_eq_true_2 by exact Hn. reflexivity.
Qed.

Lemma setTBva_run (VA : float) (n : Z) (d : D) :
  double_trunc (PrimFloat.mul VA 1000) = Some n -> is_u16 n ->
  setTBva VA d = (Ok tt, dev_exec (_SetVA n) d, [_SetVA n]).
Proof.
  intros Hx Hn. unfold setTBva.
  hal_step (uint16_of_double_run _ n d Hx Hn). reflexivity.
Qed.

Lemma setTBvd_run (VD : float) (n : Z) (d : D) :
  double_trunc (PrimFloat.mul VD 1000) = Some n -> is_u16 n ->
  setTBvd VD d = (Ok tt, dev_exec (_SetVD n) d, [_SetVD n]).
Proof.
  intros Hx Hn. unfold setTBvd.
  hal_step (uint16_of_double_run _ n d Hx Hn). reflexivity.
Qed.

Lemma setTBia_run (IA : float) (n : Z) (d : D) :
  double_trunc (PrimFloat.mul IA 10000) = Some n -> is_u16 n ->
  setTBia IA d = (Ok tt, dev_exec (_SetIA n) d, [_SetIA n]).
Proof.
  intros Hx Hn. unfold setTBia.
  hal_step (uint16_of_double_run _ n d Hx Hn). reflexivity.
Qed.

Lemma setTBid_run (ID : float) (n : Z) (d : D) :
  double_trunc (PrimFloat.mul ID 10000) = Some n -> is_u16 n ->
  setTBid ID d = (Ok tt, dev_exec (_SetID n) d, [_SetID n]).
Proof.
  intros Hx Hn. unfold setTBid.
  hal_step (uint16_of_double_run _ n d Hx Hn). reflexivity.
Qed.

Lemma getTBva_run (d : D) :
  getTBva d = (Ok (PrimFloat.div (double_of_Z (dev_GetVA d).1) 1000),
               (dev_GetVA d).2, [_GetVA]).
Proof.
  unfold getTBva, mbind, hal_bind, tb_GetVA.
  destruct (dev_GetVA d) as [v d']. reflexivity.
Qed.

Lemma getTBvd_run (d : D) :
  getTBvd d = (Ok (PrimFloat.div (double_of_Z (dev_GetVD d).1) 1000),
               (dev_GetVD d).2, [_GetVD]).
Proof.
  unfold getTBvd, mbind, hal_bind, tb_GetVD.
  destruct (dev_GetVD d) as [v d']. reflexivity.
Qed.

Lemma getTBia_run (d : D) :
  getTBia d = (Ok (PrimFloat.div (double_of_Z (dev_GetIA d).1) 10000),
               (dev_GetIA d).2, [_GetIA]).
Proof.
  unfold getTBia, mbind, hal_bind, tb_GetIA.
  destruct (dev_GetIA d) as [v d']. reflexivity.
Qed.

Lemma getTBid_run (d : D) :
  getTBid d = (Ok (PrimFloat.div (double_of_Z (dev_GetID d).1) 10000),
               (dev_GetID d).2, [_GetID]).
Proof.
  unfold getTBid, mbind, hal_bind, tb_GetID.
  destruct (dev_GetID d) as [v d']. reflexivity.
Qed.

(** C6 (amended): the setters send [uint16_t(V*1000)] and
    [uint16_t(I*10000)], the getters return the device value divided by
    [1000.0] and [10000.0].  When the double [V*1000] is an integer [n]
    below [2^16] and the device echoes [n], [getTBva] after [setTBva(V)]
    returns the double [n/1000.0]; that is [V] exactly when [V] is this
    quotient. *)
Theorem supply_scaling (V : float) (n : Z) (d : D) :
  is_u16 n ->
  PrimFloat.mul V 1000 = double_of_Z n ->
  (dev_GetVA (dev_exec (_SetVA n) d)).1 = n ->
  (calls (setTBva V d) = [_SetVA n]
   /\ result ((setTBva V;; getTBva) d) = Ok (PrimFloat.div (double_of_Z n) 1000)
   /\ (result ((setTBva V;; getTBva) d) = Ok V
       <-> V = PrimFloat.div (double_of_Z n) 1000))
  /\ (forall (x : float) (k : Z),
        double_trunc (PrimFloat.mul x 1000) = Some k -> is_u16 k ->
        calls (setTBva x d) = [_SetVA k] /\ calls (setTBvd x d) = [_SetVD k])
  /\ (forall (x : float) (k : Z),
        double_trunc (PrimFloat.mul x 10000) = Some k -> is_u16 k ->
        calls (setTBia x d) = [_SetIA k] /\ calls (setTBid x d) = [_SetID k])
  /\ result (getTBva d) = Ok (PrimFloat.div (double_of_Z (dev_GetVA d).1) 1000)
  /\ result (getTBvd d) = Ok (PrimFloat.div (double_of_Z (dev_GetVD d).1) 1000)
  /\ result (getTBia d) = Ok (PrimFloat.div (double_of_Z (dev_GetIA d).1) 10000)
  /\ result (getTBid d) = Ok (PrimFloat.div (double_of_Z (dev_GetID d).1) 10000).
Proof.
  intros Hn Hint Hecho.
  assert (Htrunc : double_trunc (PrimFloat.mul V 1000) = Some n)
    by (rewrite Hint; apply double_trunc_of_u16; exact Hn).
  assert (Hround : result ((setTBva V;; getTBva) d)
                   = Ok (PrimFloat.div (double_of_Z n) 1000)).
  { rewrite (result_bind _ _ _ _ _ _ (setTBva_run V n d Htrunc Hn)).
    rewrite getTBva_run. unfold result. cbn [fst]. rewrite Hecho. reflexivity. }
  split; [split; [|split]|].
  - rewrite (setTBva_run V n d Htrunc Hn). reflexivity.
  - exact Hround.
  - rewrite Hround. split; [intros Heq; injection Heq as ->; reflexivity|].
    intros <-. reflexivity.
  - split; [|split].
    + intros x k Hx Hk.
      rewrite (setTBva_run x k d Hx Hk), (setTBvd_run x k d Hx Hk). split; reflexivity.
    + intros x k Hx Hk.
      rewrite (setTBia_run x k d Hx Hk), (setTBid_run x k d Hx Hk). split; reflexivity.
    + rewrite getTBva_run, getTBvd_run, getTBia_run, getTBid_run.
      repeat split; reflexivity.
Qed.
End Supply.

Lemma supply_scaling_witness :
  (is_u16 1500
   /\ PrimFloat.mul 1.5 1000 = double_of_Z 1500
   /\ (dev_GetVA (dev_exec (_SetVA 1500) bench.idle)).1 = 1500)
  /\ calls (setTBva 1.5 bench.idle) = [_SetVA 1500]
  /\ result ((setTBva 1.5;; getTBva) bench.idle)
     = Ok (PrimFloat.div (double_of_Z 1500) 1000)
  /\ (result ((setTBva 1.5;; getTBva) bench.idle) = Ok 1.5%float
      <-> 1.5%float = PrimFloat.div (double_of_Z 1500) 1000).
Proof.
  assert (Hn : is_u16 1500) by (unfold is_u16; lia).
  assert (Hint : PrimFloat.mul 1.5 1000 = double_of_Z 1500) by reflexivity.
  assert (Hecho : (dev_GetVA (dev_exec (_SetVA 1500) bench.idle)).1 = 1500)
    by reflexivity.
  split; [auto|].
  exact (proj1 (supply_scaling 1.5 1500 bench.idle Hn Hint Hecho)).
Defined.

(** C6 as stated fails for the double just above 43/1000.0: its product
    with 1000 is the double 43, the device is sent 43 and echoes it, and
    [getTBva] returns 43/1000.0, another double. *)
Lemma supply_round_trip_last_bit :
  let V := 0x1.604189374bc6bp-5%float in
  let r := (setTBva V;; getTBva) bench.idle in
  PrimFloat.mul V 1000 = 43%float
  /\ calls r = [_SetVA 43; _GetVA]
  /\ result r = Ok 0x1.604189374bc6ap-5%float
  /\ PrimFloat.eqb 0x1.604189374bc6ap-5 V = false.
Proof. vm_compute. repeat split; reflexivity. Qed.

(** The conversion cuts the fraction off: 1.001 V is sent as 1000 mV. *)
Example setTBva_truncates :
  calls (setTBva 0x1.004189374bc6ap+0 bench.idle) = [_SetVA 1000]
  /\ PrimFloat.div (double_of_Z 1001) 1000 = 0x1.004189374bc6ap+0%float.
Proof. vm_compute. split; reflexivity. Qed.

Example setTBva_negative :
  result (setTBva (-1)%float bench.idle) = Fail undefined_behaviour.
Proof. vm_compute. reflexivity. Qed.

Example getTBia_bench :
  result (getTBia (bench.exec (_SetIA 12000) bench.idle)) = Ok 0x1.3333333333333p+0%float.
Proof. vm_compute. reflexivity. Qed.

(** * Further properties *)

(** ** Calibration: parameters and calls *)

Section CalibrationCalls.
Context {D : Type} `{CTestboard D} `{constants_h} `{datatypes_h}.

(** X1: with fewer than two parameters [PixelCalibrateMap] and
    [RocCalibrateMap] throw [std::out_of_range] before anything is sent:
    no call is issued and the testboard is as it was. *)
Theorem calibrate_short_parameter (rocid col rw : Z) (parameter : list Z) (d : D) :
  (length parameter < 2)%nat ->
  PixelCalibrateMap rocid col rw parameter d = (Fail out_of_range, d, [])
  /\ RocCalibrateMap rocid parameter d = (Fail out_of_range, d, []).
Proof.
  intros Hlen.
  destruct parameter as [|flags [|nTriggers rest]]; cbn in Hlen; try lia;
    split; reflexivity.
Qed.

(** X2: the flags choose the value that is returned and nothing else:
    both calibrations select the chip and start the measurement with the
    number of triggers, whatever the flags are and whatever comes back. *)
Theorem calibrate_flags_not_sent (rocid col rw flags nTriggers : Z) (rest : list Z) (d : D) :
  calls (PixelCalibrateMap rocid col rw (flags :: nTriggers :: rest) d)
  = [roc_I2cAddr rocid; CalibratePixel nTriggers col rw]
  /\ calls (RocCalibrateMap rocid (flags :: nTriggers :: rest) d)
     = [roc_I2cAddr rocid; CalibrateMap nTriggers]
  /\ board (PixelCalibrateMap rocid col rw (flags :: nTriggers :: rest) d)
     = (dev_CalibratePixel nTriggers col rw (dev_exec (roc_I2cAddr rocid) d)).2
  /\ board (RocCalibrateMap rocid (flags :: nTriggers :: rest) d)
     = (dev_CalibrateMap nTriggers (dev_exec (roc_I2cAddr rocid) d)).2.
Proof.
  destruct (dev_CalibratePixel nTriggers col rw (dev_exec (roc_I2cAddr rocid) d))
    as [[[status nReadouts] PHsum] d1] eqn:Hpix.
  destruct (dev_CalibrateMap nTriggers (dev_exec (roc_I2cAddr rocid) d))
    as [[[[status' nReadouts'] PHsum'] address] d2] eqn:Hmap.
  assert (Hp : tb_CalibratePixel nTriggers col rw (dev_exec (roc_I2cAddr rocid) d)
               = (Ok (status, nReadouts, PHsum), d1, [CalibratePixel nTriggers col rw]))
    by (unfold tb_CalibratePixel; rewrite Hpix; reflexivity).
  assert (Hm : tb_CalibrateMap nTriggers (dev_exec (roc_I2cAddr rocid) d)
               = (Ok (status', nReadouts', PHsum', address), d2, [CalibrateMap nTriggers]))
    by (unfold tb_CalibrateMap; rewrite Hmap; reflexivity).
  assert (Hpixel : PixelCalibrateMap rocid col rw (flags :: nTriggers :: rest) d
                   = (Ok [[ {| roc_id := rocid; column := col; row := rw;
                               value := if get_efficiency flags then nReadouts else PHsum |} ]],
                      d1, [roc_I2cAddr rocid; CalibratePixel nTriggers col rw])).
  { unfold PixelCalibrateMap.
    hal_step (at_run (flags :: nTriggers :: rest) 0%nat flags d eq_refl).
    hal_step (at_run (flags :: nTriggers :: rest) 1%nat nTriggers d eq_refl).
    hal_step (run_tb (roc_I2cAddr rocid) d). hal_step Hp. reflexivity. }
  assert (Hroc : exists r, RocCalibrateMap rocid (flags :: nTriggers :: rest) d
                   = (r, d2, [roc_I2cAddr rocid; CalibrateMap nTriggers])).
  { unfold RocCalibrateMap.
    hal_step (at_run (flags :: nTriggers :: rest) 0%nat flags d eq_refl).
    hal_step (at_run (flags :: nTriggers :: rest) 1%nat nTriggers d eq_refl).
    hal_step (run_tb (roc_I2cAddr rocid) d). hal_step Hm. cbn beta iota.
    destruct (negb (length address =? length nReadouts')%nat
              || negb (length address =? length PHsum')%nat
              || negb (length nReadouts' =? length PHsum')%nat) eqn:Hsizes.
    - eexists. reflexivity.
    - apply orb_false_elim in Hsizes as [Hs _].
      apply orb_false_elim in Hs as [Hn Hp'].
      apply negb_false_iff, Nat.eqb_eq in Hn, Hp'.
      assert (Hfill := RocCalibrateMap_fill_run flags nReadouts' PHsum' address 0 [] d2).
      cbn zeta in Hfill.
      rewrite (run_bind _ _ _ _ _ _ (Hfill ltac:(destruct (get_efficiency flags); lia))).
      eexists. reflexivity. }
  destruct Hroc as [r Hroc]. rewrite Hpixel, Hroc. unfold calls, board. cbn [fst snd].
  repeat split; reflexivity.
Qed.
End CalibrationCalls.

Lemma calibrate_short_parameter_witness :
  (length [256] < 2)%nat
  /\ PixelCalibrateMap (H0 := bench.psi46) 2 11 22 [256] bench.calibrated
     = (Fail out_of_range, bench.calibrated, [])
  /\ RocCalibrateMap (H0 := bench.psi46) (H1 := bench.packed) 2 [256] bench.calibrated
     = (Fail out_of_range, bench.calibrated, []).
Proof.
  assert (Hlen : (length [256] < 2)%nat) by (cbn; lia).
  split; [exact Hlen|].
  exact (calibrate_short_parameter (H0 := bench.psi46) (H1 := bench.packed)
           2 11 22 [256] bench.calibrated Hlen).
Defined.

(** ** TBM registers *)

Section TbmRegisters.
Context {D : Type} `{CTestboard D}.

(** X3: [tbmSetRegs] writes the registers by ascending register number,
    each after selecting hub address 31, and flushes once at the end.
    The TBM identifier is not used: the calls and the testboard they
    leave are the same for every [tbmId]. *)
Theorem tbmSetRegs_calls (tbmId tbmId' : Z) (regPairs : gmap Z Z) (d : D) :
  let r := tbmSetRegs tbmId regPairs d in
  let pairs := begin_end regPairs in
  calls r = (pairs ≫= (fun it => [mod_Addr 31; tbm_Set it.1 it.2])) ++ [Flush]
  /\ length (calls r) = (2 * size regPairs + 1)%nat
  /\ StronglySorted Z.lt pairs.*1
  /\ (forall reg value, (reg, value) ∈ pairs <-> regPairs !! reg = Some value)
  /\ tbmSetRegs tbmId' regPairs d = r.
Proof.
  intros r pairs. subst r pairs. rewrite !tbmSetRegs_run.
  unfold calls. cbn [snd].
  split; [reflexivity|]. split.
  - rewrite length_app. cbn [length].
    assert (Hsum : forall l : list (Z * Z),
              length (l ≫= (fun it => [mod_Addr 31; tbm_Set it.1 it.2]))
              = (2 * length l)%nat).
    { induction l as [|x l IH]; [reflexivity|].
      rewrite bind_cons, length_app, IH. cbn [length]. lia. }
    rewrite Hsum. unfold begin_end.
    rewrite merge_sort_Permutation, length_map_to_list. lia.
  - split; [apply begin_end_ascending|].
    split; [intros reg value; apply begin_end_bindings|reflexivity].
Qed.
End TbmRegisters.

(** ** Pixels off the chip *)

Section OffChip.
Context {D : Type} `{CTestboard D} `{constants_h}.

Lemma RocSetMask_trim_fail (pixels : list pixelConfig.t) : forall (trim : list Z) (d : D),
  Exists (fun px =>
    ~ (0 <= pixelConfig.column px * ROC_NUMROWS + pixelConfig.row px
         < Z.of_nat (length trim))) pixels ->
  RocSetMask_trim trim pixels d = (Fail undefined_behaviour, d, []).
Proof.
  induction pixels as [|px rest IH]; intros trim d Hex.
  - inversion Hex.
  - cbn [RocSetMask_trim].
    destruct (decide (0 <= pixelConfig.column px * ROC_NUMROWS + pixelConfig.row px
                        < Z.of_nat (length trim))) as [Hin|Hout].
    + rewrite bool_decide_eq_true_2 by exact Hin.
      apply IH. rewrite length_insert.
      apply Exists_cons in Hex as [Hpx|Hrest]; [contradiction|exact Hrest].
    + rewrite bool_decide_eq_false_2 by exact Hout. reflexivity.
Qed.

End OffChip.


(** ** The pattern-generator program in memory *)

Section ProgramMemory.
Context {D : Type} `{CTestboard D}.

(** X5: after [SetupPatternGenerator] the memory holds, at address
    [k mod 256], the command word of entry [k], for every entry that no
    later entry overwrites; for a program of at most 256 entries that is
    every entry, each at its own index. *)
Theorem SetupPatternGenerator_memory (pg_setup : list (Z * Z)) (mem : gmap Z Z) (d : D) :
  let m := pg_memory mem (calls (SetupPatternGenerator pg_setup d)) in
  (forall k it,
     pg_setup !! k = Some it ->
     (forall j, (k < j < length pg_setup)%nat ->
        Z.of_nat j mod 256 <> Z.of_nat k mod 256) ->
     m !! (Z.of_nat k mod 256) = Some (to_u16 (Z.lor it.1 it.2)))
  /\ ((length pg_setup <= 256)%nat ->
      forall k it, pg_setup !! k = Some it ->
        m !! Z.of_nat k = Some (to_u16 (Z.lor it.1 it.2))).
Proof.
  intros m. subst m. rewrite SetupPatternGenerator_run. unfold calls. cbn [snd].
  set (cs := imap (fun k it => Pg_SetCmd (to_u8 (Z.of_nat k)) (to_u16 (Z.lor it.1 it.2)))
               pg_setup).
  assert (Hgen : forall k it,
     pg_setup !! k = Some it ->
     (forall j, (k < j < length pg_setup)%nat ->
        Z.of_nat j mod 256 <> Z.of_nat k mod 256) ->
     pg_memory mem cs !! (Z.of_nat k mod 256) = Some (to_u16 (Z.lor it.1 it.2))).
  { intros k it Hk Hlater.
    assert (Hck : cs !! k = Some (Pg_SetCmd (to_u8 (Z.of_nat k)) (to_u16 (Z.lor it.1 it.2))))
      by (subst cs; rewrite list_lookup_imap, Hk; reflexivity).
    rewrite <- (take_drop_middle cs k _ Hck).
    unfold pg_memory. rewrite foldl_app. cbn [foldl pg_step].
    fold (pg_memory (<[to_u8 (Z.of_nat k) := to_u16 (Z.lor it.1 it.2)]>
                       (foldl pg_step mem (take k cs))) (drop (S k) cs)).
    rewrite pg_memory_frame.
    - unfold to_u8. apply lookup_insert_eq.
    - apply Forall_lookup_2. intros j c Hj v ->.
      rewrite lookup_drop in Hj. subst cs. rewrite list_lookup_imap in Hj.
      destruct (pg_setup !! (S k + j)%nat) as [it'|] eqn:Hit'; [|discriminate].
      injection Hj as Haddr _. apply lookup_lt_Some in Hit'.
      apply (Hlater (S k + j)%nat); [lia|]. exact Haddr. }
  split; [exact Hgen|].
  intros Hlen k it Hk. pose proof (lookup_lt_Some _ _ _ Hk) as Hlt.
  rewrite <- (Z.mod_small (Z.of_nat k) 256) at 1 by lia.
  apply Hgen; [exact Hk|].
  intros j Hj. rewrite !Z.mod_small by lia. lia.
Qed.
End ProgramMemory.

(** ** Supplies: what can be set, and what a reading tells *)

Lemma reapplied_1000 : Zrange_forallb (reapplied 1000) 0 (Z.to_nat (2 ^ 16)) = true.
Proof. vm_compute. reflexivity. Qed.

Lemma reapplied_10000 : Zrange_forallb (reapplied 10000) 0 (Z.to_nat (2 ^ 16)) = true.
Proof. vm_compute. reflexivity. Qed.

Lemma recovered_1000 : Zrange_forallb (recovered 1000) 0 (Z.to_nat (2 ^ 16)) = true.
Proof. vm_compute. reflexivity. Qed.

Lemma recovered_10000 : Zrange_forallb (recovered 10000) 0 (Z.to_nat (2 ^ 16)) = true.
Proof. vm_compute. reflexivity. Qed.

Lemma reapplied_spec (scale : float) (n : Z) :
  Zrange_forallb (reapplied scale) 0 (Z.to_nat (2 ^ 16)) = true ->
  is_u16 n ->
  exists k, double_trunc (PrimFloat.mul (PrimFloat.div (double_of_Z n) scale) scale) = Some k
            /\ is_u16 k /\ n - 1 <= k <= n.
Proof.
  intros Hall Hn. unfold is_u16 in *.
  pose proof (Zrange_forallb_spec _ _ 0 n Hall ltac:(lia)) as Hk.
  unfold reapplied in Hk.
  destruct (double_trunc _) as [k|]; [|discriminate].
  exists k. split; [reflexivity|].
  apply orb_prop in Hk as [Hk|Hk].
  - apply Z.eqb_eq in Hk. lia.
  - apply andb_prop in Hk as [Hk H0]. apply Z.eqb_eq in Hk. apply Z.leb_le in H0. lia.
Qed.

Lemma recovered_spec (scale : float) (n : Z) :
  Zrange_forallb (recovered scale) 0 (Z.to_nat (2 ^ 16)) = true ->
  is_u16 n ->
  device_value scale (PrimFloat.div (double_of_Z n) scale) = Some n.
Proof.
  intros Hall Hn. unfold is_u16 in *.
  pose proof (Zrange_forallb_spec _ _ 0 n Hall ltac:(lia)) as Hk.
  unfold recovered in Hk.
  destruct (device_value _ _) as [k|]; [|discriminate].
  apply Z.eqb_eq in Hk. congruence.
Qed.

Section SupplyEdges.
Context {D : Type} `{CTestboard D}.

Lemma uint16_of_double_fail (x : float) (d : D) :
  (forall n, double_trunc x = Some n -> ~ is_u16 n) ->
  uint16_of_double x d = (Fail undefined_behaviour, d, []).
Proof.
  intros Hx. unfold uint16_of_double.
  destruct (double_trunc x) as [n|]; [|reflexivity].
  rewrite bool_decide_eq_false_2 by (apply Hx; reflexivity). reflexivity.
Qed.


(** X7: writing a reading back does not always restore the device value.
    For a device value [n] below [2^16], the voltage [getTBva] makes of it
    is sent by [setTBva] as [n] or as [n - 1], never as more, and the same
    holds for the currents. *)
Theorem reading_written_back (n : Z) (d d' : D) :
  is_u16 n ->
  ((dev_GetVA d).1 = n ->
   result (getTBva d) = Ok (PrimFloat.div (double_of_Z n) 1000))
  /\ ((dev_GetIA d).1 = n ->
      result (getTBia d) = Ok (PrimFloat.div (double_of_Z n) 10000))
  /\ (exists k, n - 1 <= k <= n
        /\ setTBva (PrimFloat.div (double_of_Z n) 1000) d'
           = (Ok tt, dev_exec (_SetVA k) d', [_SetVA k]))
  /\ (exists k, n - 1 <= k <= n
        /\ setTBia (PrimFloat.div (double_of_Z n) 10000) d'
           = (Ok tt, dev_exec (_SetIA k) d', [_SetIA k])).
Proof.
  intros Hn.
  split; [intros <-; rewrite getTBva_run; reflexivity|].
  split; [intros <-; rewrite getTBia_run; reflexivity|].
  split.
  - destruct (reapplied_spec 1000 n reapplied_1000 Hn) as (k & Hk & Hu & Hnear).
    exists k. split; [exact Hnear|]. apply setTBva_run; assumption.
  - destruct (reapplied_spec 10000 n reapplied_10000 Hn) as (k & Hk & Hu & Hnear).
    exists k. split; [exact Hnear|]. apply setTBia_run; assumption.
Qed.

(** X8: different device values give different readings: on values below
    [2^16], [getTBva], [getTBvd], [getTBia] and [getTBid] lose nothing,
    and [device_value] recovers the device value from the reading. *)
Theorem readings_distinct (n m : Z) (d1 d2 : D) :
  is_u16 n -> is_u16 m -> n <> m ->
  ((dev_GetVA d1).1 = n -> (dev_GetVA d2).1 = m ->
   result (getTBva d1) <> result (getTBva d2))
  /\ ((dev_GetVD d1).1 = n -> (dev_GetVD d2).1 = m ->
      result (getTBvd d1) <> result (getTBvd d2))
  /\ ((dev_GetIA d1).1 = n -> (dev_GetIA d2).1 = m ->
      result (getTBia d1) <> result (getTBia d2))
  /\ ((dev_GetID d1).1 = n -> (dev_GetID d2).1 = m ->
      result (getTBid d1) <> result (getTBid d2))
  /\ device_value 1000 (PrimFloat.div (double_of_Z n) 1000) = Some n
  /\ device_value 10000 (PrimFloat.div (double_of_Z n) 10000) = Some n.
Proof.
  intros Hn Hm Hne.
  pose proof (recovered_spec 1000 n recovered_1000 Hn) as Hn1.
  pose proof (recovered_spec 1000 m recovered_1000 Hm) as Hm1.
  pose proof (recovered_spec 10000 n recovered_10000 Hn) as Hn2.
  pose proof (recovered_spec 10000 m recovered_10000 Hm) as Hm2.
  repeat split; try assumption.
  - intros H1 H2. rewrite !getTBva_run, H1, H2. unfold result. cbn [fst].
    intros Heq. injection Heq as Heq. rewrite Heq in Hn1. congruence.
  - intros H1 H2. rewrite !getTBvd_run, H1, H2. unfold result. cbn [fst].
    intros Heq. injection Heq as Heq. rewrite Heq in Hn1. congruence.
  - intros H1 H2. rewrite !getTBia_run, H1, H2. unfold result. cbn [fst].
    intros Heq. injection Heq as Heq. rewrite Heq in Hn2. congruence.
  - intros H1 H2. rewrite !getTBid_run, H1, H2. unfold result. cbn [fst].
    intros Heq. injection Heq as Heq. rewrite Heq in Hn2. congruence.
Qed.
End SupplyEdges.


Lemma reading_written_back_witness :
  is_u16 1001
  /\ ((dev_GetVA (bench.exec (_SetVA 1001) bench.idle)).1 = 1001 ->
      result (getTBva (bench.exec (_SetVA 1001) bench.idle))
      = Ok (PrimFloat.div (double_of_Z 1001) 1000))
  /\ ((dev_GetIA (bench.exec (_SetVA 1001) bench.idle)).1 = 1001 ->
      result (getTBia (bench.exec (_SetVA 1001) bench.idle))
      = Ok (PrimFloat.div (double_of_Z 1001) 10000))
  /\ (exists k, 1001 - 1 <= k <= 1001
        /\ setTBva (PrimFloat.div (double_of_Z 1001) 1000) bench.idle
           = (Ok tt, dev_exec (_SetVA k) bench.idle, [_SetVA k]))
  /\ (exists k, 1001 - 1 <= k <= 1001
        /\ setTBia (PrimFloat.div (double_of_Z 1001) 10000) bench.idle
           = (Ok tt, dev_exec (_SetIA k) bench.idle, [_SetIA k])).
Proof.
  assert (Hn : is_u16 1001) by (unfold is_u16; lia).
  split; [exact Hn|].
  exact (reading_written_back 1001 (bench.exec (_SetVA 1001) bench.idle) bench.idle Hn).
Defined.

Lemma readings_distinct_witness :
  (is_u16 1000 /\ is_u16 1001 /\ 1000 <> 1001)
  /\ result (getTBva (bench.exec (_SetVA 1000) bench.idle))
     <> result (getTBva (bench.exec (_SetVA 1001) bench.idle)).
Proof.
  assert (Hn : is_u16 1000) by (unfold is_u16; lia).
  assert (Hm : is_u16 1001) by (unfold is_u16; lia).
  assert (Hne : 1000 <> 1001) by lia.
  split; [auto|].
  exact (proj1 (readings_distinct 1000 1001
                  (bench.exec (_SetVA 1000) bench.idle)
                  (bench.exec (_SetVA 1001) bench.idle) Hn Hm Hne)
           eq_refl eq_refl).
Defined.

Example reading_written_back_below :
  calls (setTBva (PrimFloat.div (double_of_Z 1001) 1000) bench.idle) = [_SetVA 1000].
Proof. vm_compute. reflexivity. Qed.

(** ** Hashes: how they compose *)

Lemma GetHashForString_loop_app (s t : list Z) : forall h,
  Forall (fun c => c <> 0) s ->
  GetHashForString_loop h (s ++ t) = GetHashForString_loop (GetHashForString_loop h s) t.
Proof.
  induction s as [|c s IH]; intros h Hs; [reflexivity|].
  inversion Hs as [|? ? Hc Hrest]; subst.
  cbn [app GetHashForString_loop].
  destruct (Z.eqb_spec c 0) as [?|_]; [contradiction|].
  apply IH. exact Hrest.
Qed.

Lemma GetHashForString_loop_NUL (s t : list Z) : forall h,
  GetHashForString_loop h (s ++ 0 :: t) = GetHashForString_loop h s.
Proof.
  induction s as [|c s IH]; intros h; [reflexivity|].
  cbn [app GetHashForString_loop].
  destruct (c =? 0); [reflexivity|apply IH].
Qed.

(** X9: the hash reads a string up to its first NUL and no further: what
    follows a NUL does not change the hash.  Up to there it is a left fold:
    the hash state after [s ++ t] is the state after [t] started from the
    state after [s], when [s] holds no NUL. *)
Theorem GetHashForString_prefix (s t : list Z) :
  GetHashForString (s ++ 0 :: t) = GetHashForString s
  /\ (Forall (fun c => c <> 0) s ->
      forall h, GetHashForString_loop h (s ++ t)
                = GetHashForString_loop (GetHashForString_loop h s) t).
Proof.
  split.
  - unfold GetHashForString. rewrite GetHashForString_loop_NUL. reflexivity.
  - intros Hs h. apply GetHashForString_loop_app. exact Hs.
Qed.

Lemma GetHashForStringVector_loop_snoc (v : list (list Z)) (s : list Z) : forall i ret,
  GetHashForStringVector_loop i ret (v ++ [s])
  = to_u32 (GetHashForStringVector_loop i ret v
            + (i + Z.of_nat (length v) + 1) * GetHashForString s).
Proof.
  induction v as [|x v IH]; intros i ret.
  - cbn. rewrite Z.add_0_r. reflexivity.
  - cbn [app GetHashForStringVector_loop length]. rewrite IH.
    do 3 f_equal. lia.
Qed.

Lemma GetHashForStringVector_loop_u32 (v : list (list Z)) : forall i ret,
  0 <= ret < 2 ^ 32 -> 0 <= GetHashForStringVector_loop i ret v < 2 ^ 32.
Proof.
  induction v as [|x v IH]; intros i ret Hret; cbn [GetHashForStringVector_loop];
    [exact Hret|].
  apply IH. apply to_u32_range.
Qed.

(** X10: the hash of a list of names is a 32-bit word built name by name:
    appending a name adds its string hash times its 1-based position,
    modulo [2^32].  So the hash of one name is that name's string hash,
    and the position of a name matters. *)
Theorem GetHashForStringVector_snoc (v : list (list Z)) (s : list Z) :
  GetHashForStringVector (v ++ [s])
  = (GetHashForStringVector v + (Z.of_nat (length v) + 1) * GetHashForString s) mod 2 ^ 32
  /\ 0 <= GetHashForStringVector v < 2 ^ 32
  /\ GetHashForStringVector [s] = GetHashForString s.
Proof.
  unfold GetHashForStringVector. split; [|split].
  - rewrite GetHashForStringVector_loop_snoc. reflexivity.
  - apply GetHashForStringVector_loop_u32. lia.
  - cbn. unfold to_u32. rewrite Z.mul_1_l.
    apply Z.mod_small.
    pose proof (Z.mod_pos_bound (GetHashForString_loop 31 s) 86969 ltac:(lia)).
    unfold GetHashForString. lia.
Qed.

Example GetHashForStringVector_order :
  GetHashForStringVector [[70; 108; 117; 115; 104]; [73; 110; 105; 116]]
  <> GetHashForStringVector [[73; 110; 105; 116]; [70; 108; 117; 115; 104]].
Proof. vm_compute. congruence. Qed.

(** ** Running member functions *)

Section MemberRun.
Context {D : Type} `{CTestboard D} `{CTestboard_more D}.

Lemma member_run_bind {A B} (m : member D A) (f : A -> member D B) o a o1 t1 :
  m o = (Ok a, o1, t1) ->
  (m ≫= f) o = ((f a o1).1.1, (f a o1).1.2, t1 ++ (f a o1).2).
Proof.
  intros Hm. unfold mbind, member_bind. rewrite Hm.
  destruct (f a o1) as [[r o2] t2]. reflexivity.
Qed.

Lemma member_run_bind_fail {A B} (m : member D A) (f : A -> member D B) o e o1 t1 :
  m o = (Fail e, o1, t1) -> (m ≫= f) o = (Fail e, o1, t1).
Proof. intros Hm. unfold mbind, member_bind. rewrite Hm. reflexivity. Qed.

Lemma on_testboard_run {A} (m : hal D A) (o : hal_object D) r d t :
  m (_testboard o) = (r, d, t) ->
  on_testboard m o = (r, mk_hal d (_initialized o), core <$> t).
Proof. intros Hm. unfold on_testboard. rewrite Hm. reflexivity. Qed.

Lemma after_calls_app (cs1 cs2 : list tb_call) (o : hal_object D) :
  after_calls (cs1 ++ cs2) o = after_calls cs2 (after_calls cs1 o).
Proof. unfold after_calls. cbn. rewrite foldl_app. reflexivity. Qed.

Lemma after_calls_nil (o : hal_object D) : after_calls [] o = o.
Proof. destruct o. reflexivity. Qed.

Lemma after_calls_core (cs : list rpc_call) (o : hal_object D) :
  after_calls (core <$> cs) o = mk_hal (after cs (_testboard o)) (_initialized o).
Proof.
  unfold after_calls, after. f_equal.
  generalize (_testboard o). induction cs as [|c cs IH]; intros d; [reflexivity|].
  cbn. apply IH.
Qed.

Lemma issues_ret {A} (x : A) : issues (mret x : member D A) x [].
Proof. intros o. rewrite after_calls_nil. reflexivity. Qed.

Lemma issues_bind {A B} (m : member D A) (f : A -> member D B) x y cs1 cs2 :
  issues m x cs1 -> issues (f x) y cs2 -> issues (m ≫= f) y (cs1 ++ cs2).
Proof.
  intros Hm Hf o. rewrite (member_run_bind _ _ _ _ _ _ (Hm o)).
  rewrite Hf, after_calls_app. reflexivity.
Qed.

(** A function that ends by giving [_initialized] the value [b]. *)
Lemma issues_then {A B} (m : member D A) (f : A -> member D B) x y cs1 cs2 b :
  issues m x cs1 ->
  (forall o, f x o = (Ok y, mk_hal (_testboard (after_calls cs2 o)) b, cs2)) ->
  forall o, (m ≫= f) o
            = (Ok y, mk_hal (_testboard (after_calls (cs1 ++ cs2) o)) b, cs1 ++ cs2).
Proof.
  intros Hm Hf o. rewrite (member_run_bind _ _ _ _ _ _ (Hm o)).
  rewrite Hf, after_calls_app. reflexivity.
Qed.

Lemma issues_tbx (c : rpc_more) : issues (tbx c) tt [more c].
Proof. intros o. reflexivity. Qed.

Lemma issues_on_testboard {A} (m : hal D A) x cs :
  (forall d, m d = (Ok x, after cs d, cs)) ->
  issues (on_testboard m) x (core <$> cs).
Proof.
  intros Hm o. rewrite (on_testboard_run _ _ _ _ _ (Hm _)), after_calls_core.
  reflexivity.
Qed.

Lemma issues_for {A S} (body : A -> S -> member D S) (g : A -> S -> S)
    (t : A -> list tb_call) (its : list A) : forall s,
  (forall a s, a ∈ its -> issues (body a s) (g a s) (t a)) ->
  issues (for_ its body s) (foldl (fun s a => g a s) s its) (its ≫= t).
Proof.
  induction its as [|a its IH]; intros s Hbody; [apply issues_ret|].
  cbn [for_ foldl]. rewrite bind_cons.
  eapply issues_bind; [apply Hbody; left|].
  apply IH. intros a' s' Ha'. apply Hbody. right. exact Ha'.
Qed.

Lemma member_bind_assoc {A B C} (m : member D A) (f : A -> member D B)
    (g : B -> member D C) o :
  ((m ≫= f) ≫= g) o = (m ≫= (fun a => f a ≫= g)) o.
Proof.
  unfold mbind, member_bind.
  destruct (m o) as [[[a|e] o1] t1]; [|reflexivity].
  destruct (f a o1) as [[[b|e] o2] t2]; [|reflexivity].
  destruct (g b o2) as [[r o3] t3]. rewrite app_assoc. reflexivity.
Qed.

Lemma member_bind_ext {A B} (m : member D A) (f f' : A -> member D B) o :
  (forall a o', f a o' = f' a o') -> (m ≫= f) o = (m ≫= f') o.
Proof.
  intros Hf. unfold mbind, member_bind.
  destruct (m o) as [[[a|e] o1] t1]; [|reflexivity].
  rewrite Hf. reflexivity.
Qed.

Lemma member_ret_bind {A B} (x : A) (f : A -> member D B) o :
  (mret x ≫= f) o = f x o.
Proof.
  unfold mbind, member_bind, mret, member_ret.
  destruct (f x o) as [[r o2] t2]. reflexivity.
Qed.

Lemma for_app {A S} (body : A -> S -> member D S) (its1 its2 : list A) : forall s o,
  for_ (its1 ++ its2) body s o = (s' ← for_ its1 body s; for_ its2 body s') o.
Proof.
  induction its1 as [|a its1 IH]; intros s o.
  - cbn [app for_]. rewrite member_ret_bind. reflexivity.
  - cbn [app for_]. rewrite member_bind_assoc.
    apply member_bind_ext. intros s1 o1. apply IH.
Qed.

(** A loop whose rounds add to a list and send nothing. *)
Lemma for_collect {A B} (body : A -> list B -> member D (list B)) (g : A -> list B)
    (its : list A) : forall s (o : hal_object D),
  (forall a s o, a ∈ its -> body a s o = (Ok (s ++ g a), o, [])) ->
  for_ its body s o = (Ok (s ++ (its ≫= g)), o, []).
Proof.
  induction its as [|a its IH]; intros s o Hbody.
  - cbn. rewrite app_nil_r. reflexivity.
  - cbn [for_]. rewrite (member_run_bind _ _ _ _ _ _ (Hbody a s o ltac:(left))).
    rewrite IH by (intros; apply Hbody; right; assumption).
    rewrite bind_cons, app_assoc. reflexivity.
Qed.

(** Flag keeping is closed under the constructions of the monad. *)
Lemma keeps_ret {A} (x : A) : keeps_initialized (mret x : member D A).
Proof. intros o. reflexivity. Qed.

Lemma keeps_bind {A B} (m : member D A) (f : A -> member D B) :
  keeps_initialized m -> (forall a, keeps_initialized (f a)) ->
  keeps_initialized (m ≫= f).
Proof.
  intros Hm Hf o. unfold mbind, member_bind, object.
  specialize (Hm o). unfold object in Hm.
  destruct (m o) as [[[a|e] o1] t1]; cbn in Hm |- *; [|exact Hm].
  specialize (Hf a o1). unfold object in Hf.
  destruct (f a o1) as [[r o2] t2]. cbn in Hf |- *. congruence.
Qed.

Lemma keeps_on_testboard {A} (m : hal D A) : keeps_initialized (on_testboard m).
Proof.
  intros o. unfold on_testboard, object.
  destruct (m (_testboard o)) as [[r d] t]. reflexivity.
Qed.

Lemma keeps_tbx (c : rpc_more) : keeps_initialized (tbx c).
Proof. intros o. reflexivity. Qed.

Lemma keeps_Daq_Open buffersize channel :
  keeps_initialized (tbx_Daq_Open buffersize channel).
Proof.
  intros o. unfold tbx_Daq_Open, object.
  destruct (dev_Daq_Open buffersize channel (_testboard o)). reflexivity.
Qed.

Lemma keeps_CalibrateDacScan a b c e f :
  keeps_initialized (tbx_CalibrateDacScan a b c e f).
Proof.
  intros o. unfold tbx_CalibrateDacScan, object.
  destruct (dev_CalibrateDacScan a b c e f (_testboard o)). reflexivity.
Qed.

Lemma keeps_CalibrateDacDacScan a b c e f g h :
  keeps_initialized (tbx_CalibrateDacDacScan a b c e f g h).
Proof.
  intros o. unfold tbx_CalibrateDacDacScan, object.
  destruct (dev_CalibrateDacDacScan a b c e f g h (_testboard o)). reflexivity.
Qed.

Lemma keeps_for {A S} (body : A -> S -> member D S) (its : list A) : forall s,
  (forall a s, keeps_initialized (body a s)) -> keeps_initialized (for_ its body s).
Proof.
  induction its as [|a its IH]; intros s Hbody; [apply keeps_ret|].
  cbn [for_]. apply keeps_bind; [apply Hbody|]. intros s'. apply IH. exact Hbody.
Qed.

Lemma keeps_if {A} (b : bool) (m1 m2 : member D A) :
  keeps_initialized m1 -> keeps_initialized m2 ->
  keeps_initialized (if b then m1 else m2).
Proof. destruct b; auto. Qed.
End MemberRun.

Create HintDb keeps.
#[global] Hint Resolve keeps_ret keeps_on_testboard keeps_tbx keeps_Daq_Open
  keeps_CalibrateDacScan keeps_CalibrateDacDacScan keeps_if : keeps.

(** Decompose a member function into the constructions above. *)
Ltac keeps :=
  repeat lazymatch goal with
  | |- keeps_initialized (for_ _ _ _) => apply keeps_for; intros
  | |- keeps_initialized (_ ≫= _) => apply keeps_bind; [|intros]
  | |- keeps_initialized (match ?x with _ => _ end) => destruct x
  | |- keeps_initialized _ => solve [auto with keeps]
  end.

Ltac member_step H := rewrite (member_run_bind _ _ _ _ _ _ H).

(** ** Initialisation *)

Section Initialisation.
Context {D : Type} `{CTestboard D} `{CTestboard_more D} `{signals_h}.

Lemma initTestboard_delay_issues (sigIt : Z * Z) :
  issues (initTestboard_delay sigIt) tt
    (if sigIt.1 =? SIG_DESER160PHASE
     then [more (Daq_Select_Deser160 sigIt.2)]
     else [more (Sig_SetDelay sigIt.1 sigIt.2); more (Sig_SetLevel sigIt.1 15)]).
Proof.
  unfold initTestboard_delay. destruct (sigIt.1 =? SIG_DESER160PHASE).
  - apply issues_tbx.
  - apply (issues_bind _ _ tt tt [_] [_]); apply issues_tbx.
Qed.

Lemma initTestboard_delays_issues (its : list (Z * Z)) :
  issues (for_ its (fun sigIt _ => initTestboard_delay sigIt) tt) tt
    (its ≫= (fun sigIt =>
       if sigIt.1 =? SIG_DESER160PHASE
       then [more (Daq_Select_Deser160 sigIt.2)]
       else [more (Sig_SetDelay sigIt.1 sigIt.2); more (Sig_SetLevel sigIt.1 15)])).
Proof.
  pose proof (issues_for (fun sigIt (_ : unit) => initTestboard_delay sigIt)
                (fun _ s => s)
                (fun sigIt =>
                   if sigIt.1 =? SIG_DESER160PHASE
                   then [more (Daq_Select_Deser160 sigIt.2)]
                   else [more (Sig_SetDelay sigIt.1 sigIt.2);
                         more (Sig_SetLevel sigIt.1 15)]) its tt) as Hfor.
  destruct (foldl (fun (s : unit) (_ : Z * Z) => s) tt its). apply Hfor.
  intros a [] _. apply initTestboard_delay_issues.
Qed.

Lemma initTestboard_run (sig_delays : gmap Z Z) (pg_setup : list (Z * Z))
    (va vd ia id : float) (a b c e : Z) (o : hal_object D) :
  double_trunc (PrimFloat.mul va 1000) = Some a -> is_u16 a ->
  double_trunc (PrimFloat.mul vd 1000) = Some b -> is_u16 b ->
  double_trunc (PrimFloat.mul ia 10000) = Some c -> is_u16 c ->
  double_trunc (PrimFloat.mul id 10000) = Some e -> is_u16 e ->
  let cs :=
    [core (_SetVA a); core (_SetVD b); core (_SetIA c); core (_SetID e); core Flush]
    ++ (begin_end sig_delays ≫= (fun sigIt =>
          if sigIt.1 =? SIG_DESER160PHASE
          then [more (Daq_Select_Deser160 sigIt.2)]
          else [more (Sig_SetDelay sigIt.1 sigIt.2); more (Sig_SetLevel sigIt.1 15)]))
    ++ [core Flush]
    ++ (core <$> imap (fun k it => Pg_SetCmd (to_u8 (Z.of_nat k))
                                             (to_u16 (Z.lor it.1 it.2))) pg_setup) in
  initTestboard sig_delays pg_setup va vd ia id o
  = (Ok tt, mk_hal (_testboard (after_calls cs o)) true, cs).
Proof.
  intros Ha Hua Hb Hub Hc Huc He Hue cs.
  assert (Hrun : exists cs',
    (forall o, initTestboard sig_delays pg_setup va vd ia id o
               = (Ok tt, mk_hal (_testboard (after_calls cs' o)) true, cs'))
    /\ cs' = cs).
  { eexists. split.
    - unfold initTestboard.
      eapply issues_then;
        [apply (issues_on_testboard _ tt [_SetVA a]); intros d;
         apply setTBva_run; assumption|].
      eapply issues_then;
        [apply (issues_on_testboard _ tt [_SetVD b]); intros d;
         apply setTBvd_run; assumption|].
      eapply issues_then;
        [apply (issues_on_testboard _ tt [_SetIA c]); intros d;
         apply setTBia_run; assumption|].
      eapply issues_then;
        [apply (issues_on_testboard _ tt [_SetID e]); intros d;
         apply setTBid_run; assumption|].
      eapply issues_then;
        [apply (issues_on_testboard _ tt [Flush]); intros d; apply run_tb|].
      eapply issues_then; [apply initTestboard_delays_issues|].
      eapply issues_then;
        [apply (issues_on_testboard _ tt [Flush]); intros d; apply run_tb|].
      eapply issues_then;
        [apply issues_on_testboard; intros d; apply SetupPatternGenerator_run|].
      intros o'. instantiate (1 := []). reflexivity.
    - subst cs. cbn [fmap list_fmap app]. rewrite app_nil_r. reflexivity. }
  destruct Hrun as (cs' & Hrun & ->). apply Hrun.
Qed.
End Initialisation.

Section InitialisationProperties.
Context {D : Type} `{CTestboard D} `{CTestboard_more D} `{constants_h} `{signals_h}.

(** X11: [initTestboard] with supplies that convert sets the four
    supplies and flushes, then visits the signal delays by ascending
    signal: the deserializer phase goes to [Daq_Select_Deser160], every
    other signal gets its delay and then level 15; it flushes again,
    programs the pattern generator, and marks the HAL initialized, so
    that [status] answers [true]. *)
Theorem initTestboard_calls (sig_delays : gmap Z Z) (pg_setup : list (Z * Z))
    (va vd ia id : float) (a b c e : Z) (o : hal_object D) :
  double_trunc (PrimFloat.mul va 1000) = Some a -> is_u16 a ->
  double_trunc (PrimFloat.mul vd 1000) = Some b -> is_u16 b ->
  double_trunc (PrimFloat.mul ia 10000) = Some c -> is_u16 c ->
  double_trunc (PrimFloat.mul id 10000) = Some e -> is_u16 e ->
  let cs :=
    [core (_SetVA a); core (_SetVD b); core (_SetIA c); core (_SetID e); core Flush]
    ++ (begin_end sig_delays ≫= (fun sigIt =>
          if sigIt.1 =? SIG_DESER160PHASE
          then [more (Daq_Select_Deser160 sigIt.2)]
          else [more (Sig_SetDelay sigIt.1 sigIt.2); more (Sig_SetLevel sigIt.1 15)]))
    ++ [core Flush]
    ++ (core <$> imap (fun k it => Pg_SetCmd (to_u8 (Z.of_nat k))
                                             (to_u16 (Z.lor it.1 it.2))) pg_setup) in
  let r := initTestboard sig_delays pg_setup va vd ia id o in
  r = (Ok tt, mk_hal (_testboard (after_calls cs o)) true, cs)
  /\ status (object r) = (Ok true, object r, []).
Proof.
  intros Ha Hua Hb Hub Hc Huc He Hue cs r. subst r.
  rewrite (initTestboard_run sig_delays pg_setup va vd ia id a b c e o) by assumption.
  split; reflexivity.
Qed.

(** X12: [initTestboard] does not flush after programming the pattern
    generator: with a non-empty program its last call is the [Pg_SetCmd]
    of the last entry, which stays queued until something else flushes. *)
Theorem initTestboard_program_not_flushed (sig_delays : gmap Z Z)
    (pg_setup : list (Z * Z)) (va vd ia id : float) (a b c e : Z) (o : hal_object D) :
  double_trunc (PrimFloat.mul va 1000) = Some a -> is_u16 a ->
  double_trunc (PrimFloat.mul vd 1000) = Some b -> is_u16 b ->
  double_trunc (PrimFloat.mul ia 10000) = Some c -> is_u16 c ->
  double_trunc (PrimFloat.mul id 10000) = Some e -> is_u16 e ->
  pg_setup <> [] ->
  exists addr it,
    last pg_setup = Some it
    /\ last (initTestboard sig_delays pg_setup va vd ia id o).2
       = Some (core (Pg_SetCmd addr (to_u16 (Z.lor it.1 it.2)))).
Proof.
  intros Ha Hua Hb Hub Hc Huc He Hue Hpg.
  rewrite (initTestboard_run sig_delays pg_setup va vd ia id a b c e o) by assumption.
  cbn [snd].
  destruct (exists_last Hpg) as (front & it & ->).
  exists (to_u8 (Z.of_nat (length front))), it.
  split; [apply last_snoc|].
  rewrite imap_app. cbn [imap]. rewrite fmap_app. cbn [fmap list_fmap].
  rewrite !app_assoc, last_snoc. cbn beta. rewrite Nat.add_0_r. reflexivity.
Qed.

Lemma initTestboard_delay_keeps (sigIt : Z * Z) :
  keeps_initialized (initTestboard_delay sigIt).
Proof. unfold initTestboard_delay. keeps. Qed.


End InitialisationProperties.

Lemma initTestboard_calls_witness :
  let sig_delays : gmap Z Z := <[4 := 8]> (<[1 := 10]> ∅) in
  let pg_setup := [(2048, 25); (256, 0)] in
  let o := mk_hal bench.idle false in
  let cs :=
    [core (_SetVA 1500); core (_SetVD 2500); core (_SetIA 12500); core (_SetID 10000);
     core Flush]
    ++ (begin_end sig_delays ≫= (fun sigIt =>
          if sigIt.1 =? 4
          then [more (Daq_Select_Deser160 sigIt.2)]
          else [more (Sig_SetDelay sigIt.1 sigIt.2); more (Sig_SetLevel sigIt.1 15)]))
    ++ [core Flush]
    ++ (core <$> imap (fun k it => Pg_SetCmd (to_u8 (Z.of_nat k))
                                             (to_u16 (Z.lor it.1 it.2))) pg_setup) in
  let r := initTestboard (H2 := bench_signals) sig_delays pg_setup 1.5 2.5 1.25 1 o in
  (double_trunc (PrimFloat.mul 1.5 1000) = Some 1500 /\ is_u16 1500
   /\ double_trunc (PrimFloat.mul 2.5 1000) = Some 2500 /\ is_u16 2500
   /\ double_trunc (PrimFloat.mul 1.25 10000) = Some 12500 /\ is_u16 12500
   /\ double_trunc (PrimFloat.mul 1 10000) = Some 10000 /\ is_u16 10000)
  /\ r = (Ok tt, mk_hal (_testboard (after_calls cs o)) true, cs)
  /\ status (object r) = (Ok true, object r, []).
Proof.
  assert (Ha : double_trunc (PrimFloat.mul 1.5 1000) = Some 1500) by reflexivity.
  assert (Hb : double_trunc (PrimFloat.mul 2.5 1000) = Some 2500) by reflexivity.
  assert (Hc : double_trunc (PrimFloat.mul 1.25 10000) = Some 12500) by reflexivity.
  assert (He : double_trunc (PrimFloat.mul 1 10000) = Some 10000) by reflexivity.
  assert (Hua : is_u16 1500) by (unfold is_u16; lia).
  assert (Hub : is_u16 2500) by (unfold is_u16; lia).
  assert (Huc : is_u16 12500) by (unfold is_u16; lia).
  assert (Hue : is_u16 10000) by (unfold is_u16; lia).
  split; [exact (conj Ha (conj Hua (conj Hb (conj Hub (conj Hc (conj Huc
                  (conj He Hue)))))))|].
  exact (initTestboard_calls (H2 := bench_signals) (<[4 := 8]> (<[1 := 10]> ∅))
           [(2048, 25); (256, 0)] 1.5 2.5 1.25 1 1500 2500 12500 10000
           (mk_hal bench.idle false) Ha Hua Hb Hub Hc Huc He Hue).
Defined.

Example initTestboard_bench :
  (initTestboard (H2 := bench_signals) (<[4 := 8]> (<[1 := 10]> ∅))
     [(2048, 25); (256, 0)] 1.5 2.5 1.25 1 (mk_hal bench.idle false)).2
  = [core (_SetVA 1500); core (_SetVD 2500); core (_SetIA 12500); core (_SetID 10000);
     core Flush;
     more (Sig_SetDelay 1 10); more (Sig_SetLevel 1 15); more (Daq_Select_Deser160 8);
     core Flush;
     core (Pg_SetCmd 0 2073); core (Pg_SetCmd 1 256)].
Proof. vm_compute. reflexivity. Qed.

Lemma initTestboard_program_not_flushed_witness :
  (double_trunc (PrimFloat.mul 1.5 1000) = Some 1500 /\ is_u16 1500
   /\ double_trunc (PrimFloat.mul 2.5 1000) = Some 2500 /\ is_u16 2500
   /\ double_trunc (PrimFloat.mul 1.25 10000) = Some 12500 /\ is_u16 12500
   /\ double_trunc (PrimFloat.mul 1 10000) = Some 10000 /\ is_u16 10000
   /\ [(2048, 25); (256, 0)] <> [])
  /\ exists addr it,
       last [(2048, 25); (256, 0)] = Some it
       /\ last (initTestboard (H2 := bench_signals) (<[4 := 8]> (<[1 := 10]> ∅))
                  [(2048, 25); (256, 0)] 1.5 2.5 1.25 1 (mk_hal bench.idle false)).2
          = Some (core (Pg_SetCmd addr (to_u16 (Z.lor it.1 it.2)))).
Proof.
  assert (Ha : double_trunc (PrimFloat.mul 1.5 1000) = Some 1500) by reflexivity.
  assert (Hb : double_trunc (PrimFloat.mul 2.5 1000) = Some 2500) by reflexivity.
  assert (Hc : double_trunc (PrimFloat.mul 1.25 10000) = Some 12500) by reflexivity.
  assert (He : double_trunc (PrimFloat.mul 1 10000) = Some 10000) by reflexivity.
  assert (Hua : is_u16 1500) by (unfold is_u16; lia).
  assert (Hub : is_u16 2500) by (unfold is_u16; lia).
  assert (Huc : is_u16 12500) by (unfold is_u16; lia).
  assert (Hue : is_u16 10000) by (unfold is_u16; lia).
  assert (Hpg : [(2048, 25); (256, 0)] <> ([] : list (Z * Z))) by discriminate.
  split; [exact (conj Ha (conj Hua (conj Hb (conj Hub (conj Hc (conj Huc
                  (conj He (conj Hue Hpg))))))))|].
  exact (initTestboard_program_not_flushed (H2 := bench_signals)
           (<[4 := 8]> (<[1 := 10]> ∅)) [(2048, 25); (256, 0)] 1.5 2.5 1.25 1
           1500 2500 12500 10000 (mk_hal bench.idle false)
           Ha Hua Hb Hub Hc Huc He Hue Hpg).
Defined.

(** ** Chip and module initialisation *)

Section ChipInitialisation.
Context {D : Type} `{CTestboard D} `{CTestboard_more D}.

(** X15: [initTBM] switches the TBM on, selects hub address 31 and
    flushes before the first register is written; the registers follow as
    [tbmSetRegs] writes them, with its flush at the end.  [initROC] issues
    the calls of [rocSetDACs] and nothing more. *)
Theorem initTBM_initROC_calls (id : Z) (regs : gmap Z Z) (o : hal_object D) :
  let tbm :=
    [more (tbm_Enable true); core (mod_Addr 31); core Flush]
    ++ (core <$> (begin_end regs ≫= (fun it => [mod_Addr 31; tbm_Set it.1 it.2])))
    ++ [core Flush] in
  let roc :=
    (core <$> (begin_end regs ≫= (fun it => [roc_I2cAddr id; roc_SetDAC it.1 it.2])))
    ++ [core Flush] in
  initTBM id regs o = (Ok tt, after_calls tbm o, tbm)
  /\ initROC id regs o = (Ok tt, after_calls roc o, roc).
Proof.
  intros tbm roc.
  assert (Htbm : exists cs, issues (initTBM id regs) tt cs /\ cs = tbm).
  { eexists. split.
    - unfold initTBM.
      eapply issues_bind; [apply issues_tbx|].
      eapply issues_bind;
        [apply (issues_on_testboard _ tt [mod_Addr 31]); intros d; apply run_tb|].
      eapply issues_bind;
        [apply (issues_on_testboard _ tt [Flush]); intros d; apply run_tb|].
      eapply issues_bind;
        [apply issues_on_testboard; intros d; apply tbmSetRegs_run|].
      apply issues_ret.
    - subst tbm. cbn [fmap list_fmap app]. rewrite app_nil_r, fmap_app. reflexivity. }
  assert (Hroc : exists cs, issues (initROC id regs) tt cs /\ cs = roc).
  { eexists. split.
    - unfold initROC.
      eapply issues_bind;
        [apply issues_on_testboard; intros d; apply rocSetDACs_run|].
      apply issues_ret.
    - subst roc. rewrite app_nil_r, fmap_app. reflexivity. }
  destruct Htbm as (? & Htbm & ->). destruct Hroc as (? & Hroc & ->).
  split; [apply Htbm|apply Hroc].
Qed.
End ChipInitialisation.

(** ** Data acquisition *)

Section Acquisition.
Context {D : Type} `{CTestboard D} `{CTestboard_more D}.

#[local] Set Warnings "-clear-no-such-hyp".

Lemma member_run_bind_to {A B} (m : member D A) (f : A -> member D B)
    o a o1 t1 r o2 t2 :
  m o = (Ok a, o1, t1) -> f a o1 = (r, o2, t2) -> (m ≫= f) o = (r, o2, t1 ++ t2).
Proof.
  intros Hm Hf. rewrite (member_run_bind _ _ _ _ _ _ Hm), Hf. reflexivity.
Qed.

Lemma tbx_Daq_Open_run buffersize channel (o : hal_object D) :
  tbx_Daq_Open buffersize channel o
  = (Ok (dev_Daq_Open buffersize channel (_testboard o)).1,
     mk_hal (dev_Daq_Open buffersize channel (_testboard o)).2 (_initialized o),
     [more (Daq_Open buffersize channel)]).
Proof.
  unfold tbx_Daq_Open. destruct (dev_Daq_Open buffersize channel (_testboard o)).
  reflexivity.
Qed.

Lemma daqStart_run (deser160phase nTBMs : Z) (o : hal_object D) :
  exists o',
    daqStart deser160phase nTBMs o
    = (Ok true, o',
       [more (Daq_Open 50000000 0); more (uDelay 100)]
       ++ (if 0 <? nTBMs
           then [more (Daq_Open 50000000 1); more Daq_Select_Deser400;
                 more (Daq_Start 1)]
           else [more (Daq_Select_Deser160 deser160phase)])
       ++ [more (Daq_Start 0); more (uDelay 100); core Flush]).
Proof.
  assert (Hrun : exists o' cs, daqStart deser160phase nTBMs o = (Ok true, o', cs)
    /\ cs = [more (Daq_Open 50000000 0); more (uDelay 100)]
            ++ (if 0 <? nTBMs
                then [more (Daq_Open 50000000 1); more Daq_Select_Deser400;
                      more (Daq_Start 1)]
                else [more (Daq_Select_Deser160 deser160phase)])
            ++ [more (Daq_Start 0); more (uDelay 100); core Flush]).
  { unfold daqStart. cbn zeta. destruct (0 <? nTBMs).
    - do 2 eexists. split.
      + eapply member_run_bind_to; [apply tbx_Daq_Open_run|].
        eapply member_run_bind_to; [reflexivity|].
        eapply member_run_bind_to.
        { eapply member_run_bind_to; [apply tbx_Daq_Open_run|].
          eapply member_run_bind_to; [reflexivity|]. reflexivity. }
        eapply member_run_bind_to; [reflexivity|].
        eapply member_run_bind_to; [reflexivity|].
        eapply member_run_bind_to; [reflexivity|]. reflexivity.
      + reflexivity.
    - do 2 eexists. split.
      + eapply member_run_bind_to; [apply tbx_Daq_Open_run|].
        eapply member_run_bind_to; [reflexivity|].
        eapply member_run_bind_to; [reflexivity|].
        eapply member_run_bind_to; [reflexivity|].
        eapply member_run_bind_to; [reflexivity|].
        eapply member_run_bind_to; [reflexivity|]. reflexivity.
      + reflexivity. }
  destruct Hrun as (o' & cs & Hrun & ->). exists o'. exact Hrun.
Qed.

Lemma daqStop_issues (nTBMs : Z) :
  issues (daqStop nTBMs) true
    (if 0 <? nTBMs then [more (Daq_Stop 1); more (Daq_Stop 0)] else [more (Daq_Stop 0)]).
Proof. intros o. unfold daqStop. destruct (0 <? nTBMs); reflexivity. Qed.

Lemma daqReset_issues (nTBMs : Z) :
  issues (daqReset nTBMs) true
    (if 0 <? nTBMs then [more (Daq_Close 1); more (Daq_Close 0)]
     else [more (Daq_Close 0)]).
Proof. intros o. unfold daqReset. destruct (0 <? nTBMs); reflexivity. Qed.

Lemma daqTrigger_issues (nTrig : Z) :
  issues (daqTrigger nTrig) tt
    (seqZ 0 nTrig ≫= (fun _ => [more Pg_Single; more (uDelay 20)])).
Proof.
  unfold daqTrigger.
  pose proof (issues_for (fun (k : Z) (_ : unit) => tbx Pg_Single;; tbx (uDelay 20))
                (fun _ s => s) (fun _ => [more Pg_Single; more (uDelay 20)])
                (seqZ 0 nTrig) tt) as Hfor.
  destruct (foldl (fun (s : unit) (_ : Z) => s) tt (seqZ 0 nTrig)). apply Hfor.
  intros k [] _. apply (issues_bind _ _ tt tt [_] [_]); apply issues_tbx.
Qed.

Lemma daqRead_calls (nTBMs : Z) (d : D) :
  exists size0 size1,
    calls (daqRead nTBMs d)
    = if 0 <? nTBMs
      then [Daq_GetSize 0; Daq_GetSize 1; Daq_Read size0 0; Daq_Read size1 1]
      else [Daq_GetSize 0; Daq_Read size0 0].
Proof.
  destruct (dev_Daq_GetSize 0 d) as [size0 d1] eqn:Hsize0.
  assert (Hs0 : tb_Daq_GetSize 0 d = (Ok size0, d1, [Daq_GetSize 0]))
    by (unfold tb_Daq_GetSize; rewrite Hsize0; reflexivity).
  destruct (dev_Daq_GetSize 1 d1) as [size1 d2] eqn:Hsize1.
  exists size0, size1. unfold daqRead. hal_step Hs0.
  destruct (0 <? nTBMs).
  - destruct (dev_Daq_Read size0 0 d2) as [[[status data] remaining] d3] eqn:Hread0.
    destruct (dev_Daq_Read size1 1 d3) as [[[status1 data1] remaining1] d4] eqn:Hread1.
    assert (Hs1 : (s ← tb_Daq_GetSize 1; mret (Some s)) d1
                  = (Ok (Some size1), d2, [Daq_GetSize 1])).
    { unfold mbind, hal_bind, tb_Daq_GetSize. rewrite Hsize1. reflexivity. }
    assert (Hr0 : tb_Daq_Read size0 0 d2
                  = (Ok (status, data, remaining), d3, [Daq_Read size0 0]))
      by (unfold tb_Daq_Read; rewrite Hread0; reflexivity).
    assert (Hr1 : tb_Daq_Read size1 1 d3
                  = (Ok (status1, data1, remaining1), d4, [Daq_Read size1 1]))
      by (unfold tb_Daq_Read; rewrite Hread1; reflexivity).
    hal_step Hs1. hal_step Hr0. cbn beta iota. hal_step Hr1. reflexivity.
  - destruct (dev_Daq_Read size0 0 d1) as [[[status data] remaining] d3] eqn:Hread0.
    assert (Hr0 : tb_Daq_Read size0 0 d1
                  = (Ok (status, data, remaining), d3, [Daq_Read size0 0]))
      by (unfold tb_Daq_Read; rewrite Hread0; reflexivity).
    hal_step (run_ret (None : option Z) d1). hal_step Hr0. reflexivity.
Qed.

(** X16: a DAQ session uses the same channels throughout.  Channel 0
    always, and channel 1 exactly when [nTBMs > 0], is opened and started
    by [daqStart], stopped by [daqStop], read by [daqRead] and closed by
    [daqReset]; no other channel is touched. *)
Theorem daq_channels_agree (deser160phase nTBMs ch : Z) (o : hal_object D) (d : D) :
  let used := ch = 0 \/ (ch = 1 /\ 0 < nTBMs) in
  (more (Daq_Open 50000000 ch) ∈ (daqStart deser160phase nTBMs o).2 <-> used)
  /\ (more (Daq_Start ch) ∈ (daqStart deser160phase nTBMs o).2 <-> used)
  /\ (more (Daq_Stop ch) ∈ (daqStop nTBMs o).2 <-> used)
  /\ (more (Daq_Close ch) ∈ (daqReset nTBMs o).2 <-> used)
  /\ (Daq_GetSize ch ∈ calls (daqRead nTBMs d) <-> used)
  /\ ((exists size, Daq_Read size ch ∈ calls (daqRead nTBMs d)) <-> used).
Proof.
  intros used. subst used.
  destruct (daqStart_run deser160phase nTBMs o) as [o' ->].
  rewrite (daqStop_issues nTBMs o), (daqReset_issues nTBMs o).
  destruct (daqRead_calls nTBMs d) as (size0 & size1 & ->).
  cbn [snd].
  destruct (Z.ltb_spec 0 nTBMs) as [Hpos|Hnpos]; cbn [app];
    repeat setoid_rewrite elem_of_cons; setoid_rewrite elem_of_nil;
    repeat apply conj; naive_solver lia.
Qed.

(** X17: [daqStart] reports success whatever buffer the testboard grants,
    and is the only one of the four that sends its calls: it ends with a
    [Flush], while [daqStop], [daqReset] and [daqTrigger] return without
    one. *)
Theorem daq_flush (deser160phase nTBMs nTrig : Z) (o : hal_object D) :
  (daqStart deser160phase nTBMs o).1.1 = Ok true
  /\ last (daqStart deser160phase nTBMs o).2 = Some (core Flush)
  /\ (daqStop nTBMs o).1.1 = Ok true
  /\ (core Flush ∉ (daqStop nTBMs o).2)
  /\ (daqReset nTBMs o).1.1 = Ok true
  /\ (core Flush ∉ (daqReset nTBMs o).2)
  /\ (core Flush ∉ (daqTrigger nTrig o).2).
Proof.
  destruct (daqStart_run deser160phase nTBMs o) as [o' ->].
  rewrite (daqStop_issues nTBMs o), (daqReset_issues nTBMs o),
    (daqTrigger_issues nTrig o).
  cbn [fst snd].
  split; [reflexivity|].
  split; [destruct (0 <? nTBMs); reflexivity|].
  split; [reflexivity|].
  split; [destruct (0 <? nTBMs); repeat setoid_rewrite elem_of_cons;
          setoid_rewrite elem_of_nil; intros H'; intuition discriminate|].
  split; [reflexivity|].
  split; [destruct (0 <? nTBMs); repeat setoid_rewrite elem_of_cons;
          setoid_rewrite elem_of_nil; intros H'; intuition discriminate|].
  rewrite list_elem_of_bind. intros (k & Hin & _).
  repeat setoid_rewrite elem_of_cons in Hin. setoid_rewrite elem_of_nil in Hin.
  intuition discriminate.
Qed.

(** X18: [daqTrigger(nTrig)] sends [nTrig] single triggers, each followed
    by a delay of 20: [2*nTrig] calls, none for [nTrig = 0]. *)
Theorem daqTrigger_calls (nTrig : Z) (o : hal_object D) :
  let cs := seqZ 0 nTrig ≫= (fun _ => [more Pg_Single; more (uDelay 20)]) in
  daqTrigger nTrig o = (Ok tt, after_calls cs o, cs)
  /\ length cs = (2 * Z.to_nat nTrig)%nat
  /\ (forall k, (k < Z.to_nat nTrig)%nat ->
        cs !! (2 * k)%nat = Some (more Pg_Single)
        /\ cs !! (2 * k + 1)%nat = Some (more (uDelay 20))).
Proof.
  intros cs. subst cs. split; [apply daqTrigger_issues|].
  assert (Hrep : forall (l : list Z),
            l ≫= (fun _ => [more Pg_Single; more (uDelay 20)])
            = concat (replicate (length l) [more Pg_Single; more (uDelay 20)])).
  { induction l as [|x l IH]; [reflexivity|]. rewrite bind_cons, IH. reflexivity. }
  rewrite Hrep, length_seqZ.
  generalize (Z.to_nat nTrig). intros n. split.
  - induction n as [|n IH]; [reflexivity|]. cbn [replicate concat].
    rewrite length_app, IH. cbn [length]. lia.
  - induction n as [|n IH]; intros k Hk; [lia|].
    cbn [replicate concat]. destruct k as [|k].
    + split; reflexivity.
    + replace (2 * S k)%nat with (S (S (2 * k))) by lia.
      replace (S (S (2 * k)) + 1)%nat with (S (S (2 * k + 1))) by lia.
      cbn [app lookup list_lookup]. apply IH. lia.
Qed.
End Acquisition.

(** ** DAC scans *)

Lemma seqZ_bind_take {A B} (src : list A) (F : A -> list B) (n : Z) :
  n <= Z.of_nat (length src) ->
  seqZ 0 n ≫= (fun i => match src !! Z.to_nat i with Some v => F v | None => [] end)
  = take (Z.to_nat n) src ≫= F.
Proof.
  intros Hn. destruct (Z.le_gt_cases 0 n) as [H0|Hneg].
  - rewrite <- (Z2Nat.id n) at 1 by exact H0.
    assert (Hk : (Z.to_nat n <= length src)%nat) by lia.
    generalize dependent (Z.to_nat n). clear Hn H0. intros k Hk.
    induction k as [|k IH]; [reflexivity|].
    rewrite seqZ_S, bind_app, IH by lia.
    destruct (lookup_lt_is_Some_2 src k ltac:(lia)) as [v Hv].
    rewrite (take_S_r _ _ _ Hv), bind_app. f_equal.
    csimpl. rewrite Z.add_0_l, Nat2Z.id, Hv. reflexivity.
  - unfold seqZ. replace (Z.to_nat n) with 0%nat by lia. reflexivity.
Qed.

Lemma bind_singleton_fmap {A B} (f : A -> B) (l : list A) :
  l ≫= (fun x => [f x]) = f <$> l.
Proof. induction l as [|x l IH]; [reflexivity|]. rewrite bind_cons, IH. reflexivity. Qed.

Lemma bind_const_replicate {A B} (y : B) (l : list A) :
  l ≫= (fun _ => [y]) = replicate (length l) y.
Proof. induction l as [|x l IH]; [reflexivity|]. rewrite bind_cons, IH. reflexivity. Qed.

Section Scans.
Context {D : Type} `{CTestboard D} `{CTestboard_more D} `{constants_h}.

Lemma hal_object_eta (o : hal_object D) : mk_hal (_testboard o) (_initialized o) = o.
Proof. destruct o. reflexivity. Qed.

Lemma on_testboard_at {A} (v : list A) i x (o : hal_object D) :
  v !! i = Some x -> on_testboard (at_ v i) o = (Ok x, o, []).
Proof.
  intros Hx. rewrite (on_testboard_run _ _ _ _ _ (at_run v i x _ Hx)), hal_object_eta.
  reflexivity.
Qed.

Lemma index_run {A} (v : list A) (i : Z) x (o : hal_object D) :
  0 <= i -> v !! Z.to_nat i = Some x -> index_ v i o = (Ok x, o, []).
Proof.
  intros Hi Hx. unfold index_. rewrite bool_decide_eq_true_2 by exact Hi.
  rewrite Hx. reflexivity.
Qed.

Lemma index_fail {A} (v : list A) (i : Z) (o : hal_object D) :
  Z.of_nat (length v) <= i -> index_ v i o = (Fail undefined_behaviour, o, []).
Proof.
  intros Hi. unfold index_. rewrite bool_decide_eq_true_2 by lia.
  rewrite lookup_ge_None_2 by lia.
  unfold on_testboard, abort. cbn. rewrite hal_object_eta. reflexivity.
Qed.

Lemma tbx_CalibrateDacScan_run a b c e f (o : hal_object D) :
  tbx_CalibrateDacScan a b c e f o
  = (Ok (dev_CalibrateDacScan a b c e f (_testboard o)).1,
     mk_hal (dev_CalibrateDacScan a b c e f (_testboard o)).2 (_initialized o),
     [more (CalibrateDacScan a b c e f)]).
Proof.
  unfold tbx_CalibrateDacScan. destruct (dev_CalibrateDacScan a b c e f (_testboard o)).
  reflexivity.
Qed.

Lemma tbx_CalibrateDacDacScan_run a b c e f g h (o : hal_object D) :
  tbx_CalibrateDacDacScan a b c e f g h o
  = (Ok (dev_CalibrateDacDacScan a b c e f g h (_testboard o)).1,
     mk_hal (dev_CalibrateDacDacScan a b c e f g h (_testboard o)).2 (_initialized o),
     [more (CalibrateDacDacScan a b c e f g h)]).
Proof.
  unfold tbx_CalibrateDacDacScan.
  destruct (dev_CalibrateDacDacScan a b c e f g h (_testboard o)). reflexivity.
Qed.

Lemma for_fail_first {A S} (body : A -> S -> member D S) a rest s o e o1 t1 :
  body a s o = (Fail e, o1, t1) -> for_ (a :: rest) body s o = (Fail e, o1, t1).
Proof. intros Hb. cbn [for_]. apply member_run_bind_fail. exact Hb. Qed.

(** The loop of [PixelCalibrateDacScan] over the values [src]. *)
Lemma DacScan_loop_run (rocid col rw flags dacmax : Z) (nReadouts PHsum : list Z)
    (o : hal_object D) :
  let src := if get_efficiency flags then nReadouts else PHsum in
  dacmax <= Z.of_nat (length src) ->
  for_ (seqZ 0 dacmax)
    (fun i result =>
       v ← (if get_efficiency flags then index_ nReadouts i else index_ PHsum i);
       let newpixel := {| roc_id := rocid; column := col; row := rw; value := v |} in
       let data := [] ++ [newpixel] in
       mret (result ++ [data]))
    [] o
  = (Ok ((fun v => [mk_pixel rocid col rw v]) <$> take (Z.to_nat dacmax) src), o, []).
Proof.
  intros src Hlen.
  rewrite (for_collect _
             (fun i => match src !! Z.to_nat i with
                       | Some v => [[mk_pixel rocid col rw v]]
                       | None => []
                       end)).
  - rewrite seqZ_bind_take by exact Hlen.
    rewrite (bind_singleton_fmap (fun v => [mk_pixel rocid col rw v])). reflexivity.
  - intros i s o' Hi. apply elem_of_seqZ in Hi.
    destruct (lookup_lt_is_Some_2 src (Z.to_nat i) ltac:(lia)) as [v Hv].
    rewrite Hv.
    assert (Hidx : (if get_efficiency flags then index_ nReadouts i else index_ PHsum i) o'
                   = (Ok v, o', []))
      by (subst src; destruct (get_efficiency flags); apply index_run; (lia || exact Hv)).
    rewrite (member_run_bind _ _ _ _ _ _ Hidx). reflexivity.
Qed.

Lemma DacScan_loop_fail (rocid col rw flags dacmax : Z) (nReadouts PHsum : list Z)
    (o : hal_object D) :
  let src := if get_efficiency flags then nReadouts else PHsum in
  Z.of_nat (length src) < dacmax ->
  for_ (seqZ 0 dacmax)
    (fun i result =>
       v ← (if get_efficiency flags then index_ nReadouts i else index_ PHsum i);
       let newpixel := {| roc_id := rocid; column := col; row := rw; value := v |} in
       let data := [] ++ [newpixel] in
       mret (result ++ [data]))
    [] o
  = (Fail undefined_behaviour, o, []).
Proof.
  intros src Hlen.
  replace dacmax with (Z.of_nat (length src) + (dacmax - Z.of_nat (length src))) by lia.
  rewrite seqZ_app by lia. rewrite for_app.
  rewrite (member_run_bind _ _ _ _ _ _
             (DacScan_loop_run rocid col rw flags (Z.of_nat (length src))
                nReadouts PHsum o ltac:(fold src; lia))).
  rewrite (seqZ_cons (0 + Z.of_nat (length src))) by lia.
  rewrite (for_fail_first _ _ _ _ _ undefined_behaviour o []); [reflexivity|].
  apply member_run_bind_fail.
  subst src. destruct (get_efficiency flags); apply index_fail; lia.
Qed.

(** X19: with five parameters and an answer that holds at least [dacmax]
    values, [PixelCalibrateDacScan] returns [dacmax] results of one pixel
    each, the [i]-th with the [i]-th value of the answer.  [dacmin] is
    read and then ignored: it is not sent to the testboard and the scan
    starts at 0. *)
Theorem PixelCalibrateDacScan_result (rocid col rw dacreg dacmin dacmax flags nTriggers : Z)
    (rest : list Z) (o : hal_object D) :
  let answer := (dev_CalibrateDacScan nTriggers col rw dacreg dacmax
                   (dev_exec (roc_I2cAddr rocid) (_testboard o))).1 in
  let src := if get_efficiency flags then answer.1.2 else answer.2 in
  dacmax <= Z.of_nat (length src) ->
  let r := PixelCalibrateDacScan rocid col rw
             (dacreg :: dacmin :: dacmax :: flags :: nTriggers :: rest) o in
  r.1.1 = Ok ((fun v => [mk_pixel rocid col rw v]) <$> take (Z.to_nat dacmax) src)
  /\ r.2 = [core (roc_I2cAddr rocid);
            more (CalibrateDacScan nTriggers col rw dacreg dacmax)].
Proof.
  intros answer src Hlen r. subst r. unfold PixelCalibrateDacScan.
  set (p := dacreg :: dacmin :: dacmax :: flags :: nTriggers :: rest).
  rewrite (member_run_bind _ _ _ _ _ _ (on_testboard_at p 0 dacreg o eq_refl)).
  rewrite (member_run_bind _ _ _ _ _ _ (on_testboard_at p 1 dacmin o eq_refl)).
  rewrite (member_run_bind _ _ _ _ _ _ (on_testboard_at p 2 dacmax o eq_refl)).
  rewrite (member_run_bind _ _ _ _ _ _ (on_testboard_at p 3 flags o eq_refl)).
  rewrite (member_run_bind _ _ _ _ _ _ (on_testboard_at p 4 nTriggers o eq_refl)).
  rewrite (member_run_bind _ _ _ _ _ _
             (on_testboard_run _ o _ _ _ (run_tb (roc_I2cAddr rocid) (_testboard o)))).
  rewrite (member_run_bind _ _ _ _ _ _ (tbx_CalibrateDacScan_run _ _ _ _ _ _)).
  cbn [_testboard _initialized fst snd].
  fold answer. destruct answer as [[status nReadouts] PHsum] eqn:Hanswer.
  cbn [fst snd] in src. cbn beta iota.
  rewrite (DacScan_loop_run rocid col rw flags dacmax nReadouts PHsum _ Hlen).
  split; reflexivity.
Qed.

(** X20: the scan reads the answer without a bounds check: when the
    testboard returns fewer than [dacmax] values, the loop reads past
    the end of the vector. *)
Theorem PixelCalibrateDacScan_short_answer (rocid col rw dacreg dacmin dacmax flags nTriggers : Z)
    (rest : list Z) (o : hal_object D) :
  let answer := (dev_CalibrateDacScan nTriggers col rw dacreg dacmax
                   (dev_exec (roc_I2cAddr rocid) (_testboard o))).1 in
  let src := if get_efficiency flags then answer.1.2 else answer.2 in
  Z.of_nat (length src) < dacmax ->
  (PixelCalibrateDacScan rocid col rw
     (dacreg :: dacmin :: dacmax :: flags :: nTriggers :: rest) o).1.1
  = Fail undefined_behaviour.
Proof.
  intros answer src Hlen. unfold PixelCalibrateDacScan.
  set (p := dacreg :: dacmin :: dacmax :: flags :: nTriggers :: rest).
  rewrite (member_run_bind _ _ _ _ _ _ (on_testboard_at p 0 dacreg o eq_refl)).
  rewrite (member_run_bind _ _ _ _ _ _ (on_testboard_at p 1 dacmin o eq_refl)).
  rewrite (member_run_bind _ _ _ _ _ _ (on_testboard_at p 2 dacmax o eq_refl)).
  rewrite (member_run_bind _ _ _ _ _ _ (on_testboard_at p 3 flags o eq_refl)).
  rewrite (member_run_bind _ _ _ _ _ _ (on_testboard_at p 4 nTriggers o eq_refl)).
  rewrite (member_run_bind _ _ _ _ _ _
             (on_testboard_run _ o _ _ _ (run_tb (roc_I2cAddr rocid) (_testboard o)))).
  rewrite (member_run_bind _ _ _ _ _ _ (tbx_CalibrateDacScan_run _ _ _ _ _ _)).
  cbn [_testboard _initialized fst snd].
  fold answer. destruct answer as [[status nReadouts] PHsum] eqn:Hanswer.
  cbn [fst snd] in src. cbn beta iota.
  rewrite (DacScan_loop_fail rocid col rw flags dacmax nReadouts PHsum _ Hlen).
  reflexivity.
Qed.
End Scans.

Lemma PixelCalibrateDacScan_result_witness :
  let o := mk_hal bench.calibrated true in
  let answer := (dev_CalibrateDacScan 10 11 22 12 2
                   (dev_exec (roc_I2cAddr 2) (_testboard o))).1 in
  let src := if get_efficiency (H0 := bench.psi46) 0 then answer.1.2 else answer.2 in
  let r := PixelCalibrateDacScan (H1 := bench.psi46) 2 11 22 [12; 0; 2; 0; 10] o in
  2 <= Z.of_nat (length src)
  /\ r.1.1 = Ok ((fun v => [mk_pixel 2 11 22 v]) <$> take (Z.to_nat 2) src)
  /\ r.2 = [core (roc_I2cAddr 2); more (CalibrateDacScan 10 11 22 12 2)].
Proof.
  assert (Hlen : 2 <= Z.of_nat (length [700; 800])) by (cbn; lia).
  split; [exact Hlen|].
  exact (PixelCalibrateDacScan_result (H1 := bench.psi46) 2 11 22 12 0 2 0 10 []
           (mk_hal bench.calibrated true) Hlen).
Defined.

Lemma PixelCalibrateDacScan_short_answer_witness :
  let o := mk_hal bench.calibrated true in
  let answer := (dev_CalibrateDacScan 10 11 22 12 5
                   (dev_exec (roc_I2cAddr 2) (_testboard o))).1 in
  let src := if get_efficiency (H0 := bench.psi46) 0 then answer.1.2 else answer.2 in
  Z.of_nat (length src) < 5
  /\ (PixelCalibrateDacScan (H1 := bench.psi46) 2 11 22 [12; 0; 5; 0; 10] o).1.1
     = Fail undefined_behaviour.
Proof.
  assert (Hlen : Z.of_nat (length [700; 800]) < 5) by (cbn; lia).
  split; [exact Hlen|].
  exact (PixelCalibrateDacScan_short_answer (H1 := bench.psi46) 2 11 22 12 0 5 0 10 []
           (mk_hal bench.calibrated true) Hlen).
Defined.

Example PixelCalibrateDacScan_bench :
  (PixelCalibrateDacScan (H1 := bench.psi46) 2 11 22 [12; 1; 2; 256; 10]
     (mk_hal bench.calibrated true)).1.1
  = Ok [[mk_pixel 2 11 22 9]; [mk_pixel 2 11 22 10]].
Proof. vm_compute. reflexivity. Qed.

Section DacDacScan.
Context {D : Type} `{CTestboard D} `{CTestboard_more D} `{constants_h}.

(** X21: [PixelCalibrateDacDacScan] returns [dac1max * dac2max] results
    of one pixel each, and every result of the [i]-th row carries the
    same value, the [i]-th of the answer: the inner index is not used to
    read the answer, so only its first [dac1max] values are returned.
    [dac1min] and [dac2min] are ignored. *)
Theorem PixelCalibrateDacDacScan_result
    (rocid col rw dac1reg dac1min dac1max dac2reg dac2min dac2max flags nTriggers : Z)
    (rest : list Z) (o : hal_object D) :
  let answer := (dev_CalibrateDacDacScan nTriggers col rw dac1reg dac1max dac2reg dac2max
                   (dev_exec (roc_I2cAddr rocid) (_testboard o))).1 in
  let src := if get_efficiency flags then answer.1.2 else answer.2 in
  dac1max <= Z.of_nat (length src) ->
  let r := PixelCalibrateDacDacScan rocid col rw
             (dac1reg :: dac1min :: dac1max :: dac2reg :: dac2min :: dac2max
                :: flags :: nTriggers :: rest) o in
  r.1.1 = Ok (take (Z.to_nat dac1max) src ≫=
                (fun v => replicate (Z.to_nat dac2max) [mk_pixel rocid col rw v]))
  /\ r.2 = [core (roc_I2cAddr rocid);
            more (CalibrateDacDacScan nTriggers col rw dac1reg dac1max dac2reg dac2max)].
Proof.
  intros answer src Hlen r. subst r. unfold PixelCalibrateDacDacScan.
  set (p := dac1reg :: dac1min :: dac1max :: dac2reg :: dac2min :: dac2max
              :: flags :: nTriggers :: rest).
  rewrite (member_run_bind _ _ _ _ _ _ (on_testboard_at p 0 dac1reg o eq_refl)).
  rewrite (member_run_bind _ _ _ _ _ _ (on_testboard_at p 1 dac1min o eq_refl)).
  rewrite (member_run_bind _ _ _ _ _ _ (on_testboard_at p 2 dac1max o eq_refl)).
  rewrite (member_run_bind _ _ _ _ _ _ (on_testboard_at p 3 dac2reg o eq_refl)).
  rewrite (member_run_bind _ _ _ _ _ _ (on_testboard_at p 4 dac2min o eq_refl)).
  rewrite (member_run_bind _ _ _ _ _ _ (on_testboard_at p 5 dac2max o eq_refl)).
  rewrite (member_run_bind _ _ _ _ _ _ (on_testboard_at p 6 flags o eq_refl)).
  rewrite (member_run_bind _ _ _ _ _ _ (on_testboard_at p 7 nTriggers o eq_refl)).
  rewrite (member_run_bind _ _ _ _ _ _
             (on_testboard_run _ o _ _ _ (run_tb (roc_I2cAddr rocid) (_testboard o)))).
  rewrite (member_run_bind _ _ _ _ _ _ (tbx_CalibrateDacDacScan_run _ _ _ _ _ _ _ _)).
  cbn [_testboard _initialized fst snd].
  fold answer. destruct answer as [[status nReadouts] PHsum] eqn:Hanswer.
  cbn [fst snd] in src. cbn beta iota.
  rewrite (for_collect _
             (fun i => match src !! Z.to_nat i with
                       | Some v => replicate (Z.to_nat dac2max) [mk_pixel rocid col rw v]
                       | None => []
                       end)).
  - rewrite seqZ_bind_take by exact Hlen. split; reflexivity.
  - intros i s o' Hi. apply elem_of_seqZ in Hi.
    destruct (lookup_lt_is_Some_2 src (Z.to_nat i) ltac:(lia)) as [v Hv].
    rewrite Hv.
    assert (Hidx : forall o'' : hal_object D,
              (if get_efficiency flags then index_ nReadouts i else index_ PHsum i) o''
              = (Ok v, o'', []))
      by (intros o''; subst src; destruct (get_efficiency flags); apply index_run;
          (lia || exact Hv)).
    rewrite (for_collect _ (fun _ => [[mk_pixel rocid col rw v]])).
    + rewrite bind_const_replicate, length_seqZ. reflexivity.
    + intros j s' o'' _. rewrite (member_run_bind _ _ _ _ _ _ (Hidx o'')). reflexivity.
Qed.
End DacDacScan.

Lemma PixelCalibrateDacDacScan_result_witness :
  let o := mk_hal bench.calibrated true in
  let answer := (dev_CalibrateDacDacScan 10 11 22 12 2 25 3
                   (dev_exec (roc_I2cAddr 2) (_testboard o))).1 in
  let src := if get_efficiency (H0 := bench.psi46) 0 then answer.1.2 else answer.2 in
  let r := PixelCalibrateDacDacScan (H1 := bench.psi46) 2 11 22
             [12; 0; 2; 25; 0; 3; 0; 10] o in
  2 <= Z.of_nat (length src)
  /\ r.1.1 = Ok (take (Z.to_nat 2) src ≫=
                   (fun v => replicate (Z.to_nat 3) [mk_pixel 2 11 22 v]))
  /\ r.2 = [core (roc_I2cAddr 2); more (CalibrateDacDacScan 10 11 22 12 2 25 3)].
Proof.
  assert (Hlen : 2 <= Z.of_nat (length [700; 800])) by (cbn; lia).
  split; [exact Hlen|].
  exact (PixelCalibrateDacDacScan_result (H1 := bench.psi46) 2 11 22 12 0 2 25 0 3 0 10 []
           (mk_hal bench.calibrated true) Hlen).
Defined.

Example PixelCalibrateDacDacScan_bench :
  (PixelCalibrateDacDacScan (H1 := bench.psi46) 2 11 22 [12; 0; 2; 25; 0; 3; 0; 10]
     (mk_hal bench.calibrated true)).1.1
  = Ok [[mk_pixel 2 11 22 700]; [mk_pixel 2 11 22 700]; [mk_pixel 2 11 22 700];
        [mk_pixel 2 11 22 800]; [mk_pixel 2 11 22 800]; [mk_pixel 2 11 22 800]].
Proof. vm_compute. reflexivity. Qed.

(** ** The test skeletons and short parameter lists *)

Section Skeletons.
Context {D : Type} `{CTestboard D} `{CTestboard_more D} `{constants_h}.

Lemma int_run (z : Z) (o : hal_object D) :
  - 2 ^ 31 <= z < 2 ^ 31 -> int_ z o = (Ok z, o, []).
Proof. intros Hz. unfold int_. rewrite bool_decide_eq_true_2 by exact Hz. reflexivity. Qed.

Lemma skeleton_value_run (rocid col rw i : Z) (o : hal_object D) :
  is_u8 rocid -> is_u8 col -> is_u8 rw -> - 2 ^ 22 <= i <= 2 ^ 22 ->
  skeleton_value rocid col rw i o = (Ok (rocid * col + rw * i), o, []).
Proof.
  unfold is_u8. intros Hr Hc Hw Hi. unfold skeleton_value.
  rewrite (member_run_bind _ _ _ _ _ _ (int_run (rocid * col) o ltac:(nia))).
  rewrite (member_run_bind _ _ _ _ _ _ (int_run (rw * i) o ltac:(nia))).
  rewrite (int_run (rocid * col + rw * i) o ltac:(nia)). reflexivity.
Qed.

(** X22: [DummyPixelTestSkeleton] sends nothing.  For DAC bounds within
    [-2^22, 2^22] it returns one single-pixel result per DAC value from
    [dacmin] up to [dacmax - 1], with value [rocid*column + row*i], and
    the empty result when [dacmax <= dacmin]. *)
Theorem DummyPixelTestSkeleton_result (rocid col rw dacreg dacmin dacmax : Z)
    (rest : list Z) (o : hal_object D) :
  is_u8 rocid -> is_u8 col -> is_u8 rw ->
  - 2 ^ 22 <= dacmin -> dacmax <= 2 ^ 22 ->
  let r := DummyPixelTestSkeleton rocid col rw (dacreg :: dacmin :: dacmax :: rest) o in
  r = (Ok ((fun i => [mk_pixel rocid col rw (rocid * col + rw * i)])
             <$> seqZ dacmin (dacmax - dacmin)), o, [])
  /\ (forall res, r.1.1 = Ok res -> length res = Z.to_nat (dacmax - dacmin))
  /\ (dacmax <= dacmin -> r.1.1 = Ok []).
Proof.
  intros Hr Hc Hw Hmin Hmax r.
  assert (Hrun : r = (Ok ((fun i => [mk_pixel rocid col rw (rocid * col + rw * i)])
                            <$> seqZ dacmin (dacmax - dacmin)), o, [])).
  { subst r. unfold DummyPixelTestSkeleton.
    set (p := dacreg :: dacmin :: dacmax :: rest).
    rewrite (member_run_bind _ _ _ _ _ _ (on_testboard_at p 0 dacreg o eq_refl)).
    rewrite (member_run_bind _ _ _ _ _ _ (on_testboard_at p 1 dacmin o eq_refl)).
    rewrite (member_run_bind _ _ _ _ _ _ (on_testboard_at p 2 dacmax o eq_refl)).
    cbn [fst snd app].
    rewrite (for_collect _ (fun i => [[mk_pixel rocid col rw (rocid * col + rw * i)]])).
    - rewrite (bind_singleton_fmap
                 (fun i => [mk_pixel rocid col rw (rocid * col + rw * i)])).
      reflexivity.
    - intros i s o' Hi. apply elem_of_seqZ in Hi.
      rewrite (member_run_bind _ _ _ _ _ _
                 (skeleton_value_run rocid col rw i o' Hr Hc Hw ltac:(lia))).
      reflexivity. }
  split; [exact Hrun|]. rewrite Hrun. cbn [fst]. split.
  - intros res Hres. injection Hres as <-. rewrite length_fmap, length_seqZ. reflexivity.
  - intros Hle. unfold seqZ. replace (Z.to_nat (dacmax - dacmin)) with 0%nat by lia.
    reflexivity.
Qed.

Lemma skeleton_roc_run (rocid i : Z) (o : hal_object D) :
  is_u8 rocid -> - 2 ^ 22 <= i <= 2 ^ 22 ->
  skeleton_roc rocid i o
  = (Ok (seqZ 0 52 ≫= (fun c =>
           (fun r => mk_pixel rocid c r (rocid * c + r * i)) <$> seqZ 0 80)), o, []).
Proof.
  intros Hr Hi. unfold skeleton_roc.
  rewrite (for_collect _
             (fun c => (fun r => mk_pixel rocid c r (rocid * c + r * i)) <$> seqZ 0 80)).
  - reflexivity.
  - intros c s o' Hc. apply elem_of_seqZ in Hc.
    rewrite (for_collect _ (fun r => [mk_pixel rocid c r (rocid * c + r * i)])).
    + rewrite (bind_singleton_fmap (fun r => mk_pixel rocid c r (rocid * c + r * i))).
      reflexivity.
    + intros w s' o'' Hw. apply elem_of_seqZ in Hw.
      rewrite (member_run_bind _ _ _ _ _ _
                 (skeleton_value_run rocid c w i o'' Hr
                    ltac:(unfold is_u8; lia) ltac:(unfold is_u8; lia) Hi)).
      cbn [fst snd app].
      rewrite (to_u8_id rocid), (to_u8_id c), (to_u8_id w) by (unfold is_u8 in *; lia).
      reflexivity.
Qed.

Lemma skeleton_scan_length (rocid i : Z) :
  length (seqZ 0 52 ≫= (fun c =>
            (fun r => mk_pixel rocid c r (rocid * c + r * i)) <$> seqZ 0 80)) = 4160%nat.
Proof.
  assert (Hlen : forall l : list Z,
            length (l ≫= (fun c => (fun r => mk_pixel rocid c r (rocid * c + r * i))
                                     <$> seqZ 0 80)) = (80 * length l)%nat).
  { induction l as [|c l IH]; [reflexivity|].
    rewrite bind_cons, length_app, IH, length_fmap, length_seqZ. cbn [length]. lia. }
  rewrite Hlen, length_seqZ. reflexivity.
Qed.

(** X23: [DummyRocTestSkeleton] and [DummyModuleTestSkeleton] send
    nothing.  For DAC bounds within [-2^22, 2^22] the first returns one
    map per DAC value and the second one map per chip 0..15 and DAC value;
    a map holds the [52 * 80 = 4160] pixels of a chip, column by column,
    each with value [rocid*column + row*i]. *)
Theorem DummyRocTestSkeleton_result (rocid dacreg dacmin dacmax : Z)
    (rest : list Z) (o : hal_object D) :
  is_u8 rocid -> - 2 ^ 22 <= dacmin -> dacmax <= 2 ^ 22 ->
  let map_of := fun rocid i =>
    seqZ 0 52 ≫= (fun c =>
      (fun r => mk_pixel rocid c r (rocid * c + r * i)) <$> seqZ 0 80) in
  DummyRocTestSkeleton rocid (dacreg :: dacmin :: dacmax :: rest) o
  = (Ok (map_of rocid <$> seqZ dacmin (dacmax - dacmin)), o, [])
  /\ DummyModuleTestSkeleton (dacreg :: dacmin :: dacmax :: rest) o
     = (Ok (seqZ 0 16 ≫= (fun rocid => map_of rocid <$> seqZ dacmin (dacmax - dacmin))),
        o, [])
  /\ (forall rocid i, length (map_of rocid i) = 4160%nat)
  /\ length (seqZ 0 16 ≫= (fun rocid => map_of rocid <$> seqZ dacmin (dacmax - dacmin)))
     = (16 * Z.to_nat (dacmax - dacmin))%nat.
Proof.
  intros Hr Hmin Hmax map_of.
  set (p := dacreg :: dacmin :: dacmax :: rest).
  assert (Hscans : forall rocid' s (o' : hal_object D),
            is_u8 rocid' ->
            for_ (seqZ dacmin (dacmax - dacmin))
              (fun i result => dacscan ← skeleton_roc rocid' i; mret (result ++ [dacscan]))
              s o'
            = (Ok (s ++ (map_of rocid' <$> seqZ dacmin (dacmax - dacmin))), o', [])).
  { intros rocid' s o' Hr'.
    rewrite (for_collect _ (fun i => [map_of rocid' i])).
    - rewrite (bind_singleton_fmap (map_of rocid')). reflexivity.
    - intros i s' o'' Hi. apply elem_of_seqZ in Hi.
      rewrite (member_run_bind _ _ _ _ _ _ (skeleton_roc_run rocid' i o'' Hr' ltac:(lia))).
      reflexivity. }
  split; [|split; [|split]].
  - unfold DummyRocTestSkeleton. fold p.
    rewrite (member_run_bind _ _ _ _ _ _ (on_testboard_at p 0 dacreg o eq_refl)).
    rewrite (member_run_bind _ _ _ _ _ _ (on_testboard_at p 1 dacmin o eq_refl)).
    rewrite (member_run_bind _ _ _ _ _ _ (on_testboard_at p 2 dacmax o eq_refl)).
    cbn [fst snd app]. rewrite (Hscans rocid [] o Hr). reflexivity.
  - unfold DummyModuleTestSkeleton. fold p.
    rewrite (for_collect _
               (fun rocid' => map_of rocid' <$> seqZ dacmin (dacmax - dacmin)));
      [reflexivity|].
    intros rocid' s o' Hin. apply elem_of_seqZ in Hin.
    rewrite (member_run_bind _ _ _ _ _ _ (on_testboard_at p 0 dacreg o' eq_refl)).
    rewrite (member_run_bind _ _ _ _ _ _ (on_testboard_at p 1 dacmin o' eq_refl)).
    rewrite (member_run_bind _ _ _ _ _ _ (on_testboard_at p 2 dacmax o' eq_refl)).
    cbn [fst snd app]. rewrite (Hscans rocid' s o' ltac:(unfold is_u8; lia)).
    reflexivity.
  - intros rocid' i. apply skeleton_scan_length.
  - assert (Hlen : forall l : list Z,
              length (l ≫= (fun rocid' => map_of rocid' <$> seqZ dacmin (dacmax - dacmin)))
              = (length l * Z.to_nat (dacmax - dacmin))%nat).
    { induction l as [|c l IH]; [reflexivity|].
      rewrite bind_cons, length_app, IH, length_fmap, length_seqZ. cbn [length]. lia. }
    rewrite Hlen, length_seqZ. reflexivity.
Qed.

(** X24: every function that takes its arguments from [parameter] reads
    them with [at] before it does anything else: with too few parameters
    (fewer than 8 for the DAC-DAC scan, 5 for the DAC scan, 3 for the
    skeletons) it throws [std::out_of_range], nothing is sent and the HAL
    is as it was. *)
Theorem scans_short_parameter (rocid col rw : Z) (parameter : list Z) (o : hal_object D) :
  (length parameter < 8)%nat ->
  PixelCalibrateDacDacScan rocid col rw parameter o = (Fail out_of_range, o, [])
  /\ ((length parameter < 5)%nat ->
      PixelCalibrateDacScan rocid col rw parameter o = (Fail out_of_range, o, []))
  /\ ((length parameter < 3)%nat ->
      DummyPixelTestSkeleton rocid col rw parameter o = (Fail out_of_range, o, [])
      /\ DummyRocTestSkeleton rocid parameter o = (Fail out_of_range, o, [])
      /\ DummyModuleTestSkeleton parameter o = (Fail out_of_range, o, [])).
Proof.
  intros Hlen. destruct o as [d init].
  do 8 (destruct parameter as [|? parameter];
        [repeat split; intros; cbn [length] in *; first [lia|reflexivity]|]).
  cbn [length] in Hlen. lia.
Qed.
End Skeletons.

Lemma DummyPixelTestSkeleton_result_witness :
  let o := mk_hal bench.idle false in
  let r := DummyPixelTestSkeleton 2 11 22 [12; 3; 6] o in
  (is_u8 2 /\ is_u8 11 /\ is_u8 22 /\ - 2 ^ 22 <= 3 /\ 6 <= 2 ^ 22)
  /\ r = (Ok ((fun i => [mk_pixel 2 11 22 (2 * 11 + 22 * i)]) <$> seqZ 3 (6 - 3)), o, [])
  /\ (forall res, r.1.1 = Ok res -> length res = Z.to_nat (6 - 3))
  /\ (6 <= 3 -> r.1.1 = Ok []).
Proof.
  assert (Hr : is_u8 2) by (unfold is_u8; lia).
  assert (Hc : is_u8 11) by (unfold is_u8; lia).
  assert (Hw : is_u8 22) by (unfold is_u8; lia).
  assert (Hmin : - 2 ^ 22 <= 3) by lia.
  assert (Hmax : 6 <= 2 ^ 22) by lia.
  split; [exact (conj Hr (conj Hc (conj Hw (conj Hmin Hmax))))|].
  exact (DummyPixelTestSkeleton_result 2 11 22 12 3 6 [] (mk_hal bench.idle false)
           Hr Hc Hw Hmin Hmax).
Defined.

Example DummyPixelTestSkeleton_bench :
  (DummyPixelTestSkeleton 2 11 22 [12; 3; 6] (mk_hal bench.idle false)).1.1
  = Ok [[mk_pixel 2 11 22 88]; [mk_pixel 2 11 22 110]; [mk_pixel 2 11 22 132]].
Proof. vm_compute. reflexivity. Qed.

Example DummyPixelTestSkeleton_overflow :
  (DummyPixelTestSkeleton 2 11 255 [12; 2 ^ 30; 2 ^ 30 + 1] (mk_hal bench.idle false)).1.1
  = Fail undefined_behaviour.
Proof. vm_compute. reflexivity. Qed.

Lemma DummyRocTestSkeleton_result_witness :
  let o := mk_hal bench.idle false in
  let map_of := fun rocid i =>
    seqZ 0 52 ≫= (fun c =>
      (fun r => mk_pixel rocid c r (rocid * c + r * i)) <$> seqZ 0 80) in
  (is_u8 2 /\ - 2 ^ 22 <= 3 /\ 5 <= 2 ^ 22)
  /\ DummyRocTestSkeleton 2 [12; 3; 5] o = (Ok (map_of 2 <$> seqZ 3 (5 - 3)), o, [])
  /\ DummyModuleTestSkeleton [12; 3; 5] o
     = (Ok (seqZ 0 16 ≫= (fun rocid => map_of rocid <$> seqZ 3 (5 - 3))), o, [])
  /\ (forall rocid i, length (map_of rocid i) = 4160%nat)
  /\ length (seqZ 0 16 ≫= (fun rocid => map_of rocid <$> seqZ 3 (5 - 3)))
     = (16 * Z.to_nat (5 - 3))%nat.
Proof.
  assert (Hr : is_u8 2) by (unfold is_u8; lia).
  assert (Hmin : - 2 ^ 22 <= 3) by lia.
  assert (Hmax : 5 <= 2 ^ 22) by lia.
  split; [exact (conj Hr (conj Hmin Hmax))|].
  exact (DummyRocTestSkeleton_result 2 12 3 5 [] (mk_hal bench.idle false) Hr Hmin Hmax).
Defined.

Lemma scans_short_parameter_witness :
  let o := mk_hal bench.calibrated true in
  (length [12; 0] < 8)%nat
  /\ PixelCalibrateDacDacScan (H1 := bench.psi46) 2 11 22 [12; 0] o
     = (Fail out_of_range, o, [])
  /\ ((length [12; 0] < 5)%nat ->
      PixelCalibrateDacScan (H1 := bench.psi46) 2 11 22 [12; 0] o
      = (Fail out_of_range, o, []))
  /\ ((length [12; 0] < 3)%nat ->
      DummyPixelTestSkeleton 2 11 22 [12; 0] o = (Fail out_of_range, o, [])
      /\ DummyRocTestSkeleton 2 [12; 0] o = (Fail out_of_range, o, [])
      /\ DummyModuleTestSkeleton [12; 0] o = (Fail out_of_range, o, [])).
Proof.
  assert (Hlen : (length [12; 0] < 8)%nat) by (cbn; lia).
  split; [exact Hlen|].
  exact (scans_short_parameter (H1 := bench.psi46) 2 11 22 [12; 0]
           (mk_hal bench.calibrated true) Hlen).
Defined.
